(** * automx2: the Apple mobileconfig generator

    A shallow embedding of [automx2/generators/__init__.py] and
    [automx2/generators/apple.py], and the properties of the generator
    subsystem proved about it.

    Python objects are modelled by the inductive type [pyval]; a [dict] is
    an association list in insertion order.  Functions that mutate their
    argument return the updated object.  Exceptions are the [Raise] results
    of the type [res]; calls to the directory service are recorded in an
    event log. *)

From Stdlib Require Import String Ascii List ZArith Lia Bool DecimalString.
Import ListNotations.

Set Warnings "-register-all".
Local Open Scope list_scope.
Local Open Scope string_scope.

(* ================================================================== *)
(** ** Python values *)

Module Py.

(** The values a payload tree is made of.  [VNone] is Python's [None]. *)
Inductive pyval : Type :=
| VNone
| VBool (b : bool)
| VInt (z : Z)
| VStr (s : string)
| VDict (items : list (string * pyval))
| VList (elems : list pyval).

(** A [dict] with string keys: the items in insertion order. *)
Definition dict : Type := list (string * pyval).

(** The classes [isinstance] is asked about. *)
Inductive pyclass : Type := Cbool | Cint | Cstr | Cdict | Clist | CNoneType.

Definition type_of (v : pyval) : pyclass :=
  match v with
  | VNone => CNoneType
  | VBool _ => Cbool
  | VInt _ => Cint
  | VStr _ => Cstr
  | VDict _ => Cdict
  | VList _ => Clist
  end.

Definition pyclass_eqb (c d : pyclass) : bool :=
  match c, d with
  | Cbool, Cbool | Cint, Cint | Cstr, Cstr
  | Cdict, Cdict | Clist, Clist | CNoneType, CNoneType => true
  | _, _ => false
  end.

(** [bool] is a subclass of [int]; the other classes are unrelated. *)
Definition issubclass (c d : pyclass) : bool :=
  pyclass_eqb c d ||
  match c, d with
  | Cbool, Cint => true
  | _, _ => false
  end.

Definition isinstance (v : pyval) (c : pyclass) : bool :=
  issubclass (type_of v) c.

(** [value is None] *)
Definition is_None (v : pyval) : bool :=
  match v with VNone => true | _ => false end.

(** Truth value of an object used as a [bool] argument. *)
Definition truth (v : pyval) : bool :=
  match v with
  | VNone => false
  | VBool b => b
  | VInt z => negb (Z.eqb z 0)
  | VStr s => negb (String.eqb s EmptyString)
  | VDict d => match d with [] => false | _ => true end
  | VList l => match l with [] => false | _ => true end
  end.

(** The integer an [int] instance stands for ([True] is 1, [False] is 0). *)
Definition as_int (v : pyval) : Z :=
  match v with
  | VInt z => z
  | VBool true => 1%Z
  | _ => 0%Z
  end.

(** The text of a [str]; [None] for an object that is not one. *)
Definition as_text (v : pyval) : option string :=
  match v with
  | VStr s => Some s
  | _ => None
  end.

(** [str(n)] for an [int]: decimal digits, with a minus sign. *)
Definition str (z : Z) : string := NilZero.string_of_int (Z.to_int z).

(** [k in d] and [d[k]] for a dictionary, generic in the value type. *)
Fixpoint lookup {V : Type} (d : list (string * V)) (k : string) : option V :=
  match d with
  | [] => None
  | (k', v) :: rest => if String.eqb k' k then Some v else lookup rest k
  end.

(** [d[k] = v]: an existing key keeps its place, a new key goes last. *)
Fixpoint setitem {V : Type} (d : list (string * V)) (k : string) (v : V)
  : list (string * V) :=
  match d with
  | [] => [(k, v)]
  | (k', v') :: rest =>
      if String.eqb k' k then (k', v) :: rest
      else (k', v') :: setitem rest k v
  end.

Definition keys {V : Type} (d : list (string * V)) : list string :=
  map fst d.

(** [l[i] = x] for a list; out of range the list is left as it is (Python
    raises there, and the generator never gets there). *)
Fixpoint list_set {A : Type} (l : list A) (i : nat) (x : A) : list A :=
  match l, i with
  | [], _ => []
  | _ :: rest, O => x :: rest
  | a :: rest, S j => a :: list_set rest j x
  end.

(** A reference to a dictionary that is an element of a list held by a
    store: the key of the list in the store, and the index in the list. *)
Definition ref : Type := (string * nat)%type.

(** The dictionary a reference refers to. *)
Definition ref_getitem (store : dict) (r : ref) : option dict :=
  match lookup store (fst r) with
  | Some (VList elems) =>
      match nth_error elems (snd r) with
      | Some (VDict d) => Some d
      | _ => None
      end
  | _ => None
  end.

(** [r[key] = value], written where the dictionary lives in the store. *)
Definition ref_setitem (store : dict) (r : ref) (key : string)
  (value : pyval) : dict :=
  match ref_getitem store r with
  | Some d =>
      match lookup store (fst r) with
      | Some (VList elems) =>
          setitem store (fst r)
            (VList (list_set elems (snd r) (VDict (setitem d key value))))
      | _ => store
      end
  | None => store
  end.

(** Induction over a value that reaches into dictionaries and lists. *)
Section pyval_induction.
Variable P : pyval -> Prop.
Hypothesis HNone : P VNone.
Hypothesis HBool : forall b, P (VBool b).
Hypothesis HInt : forall z, P (VInt z).
Hypothesis HStr : forall s, P (VStr s).
Hypothesis HDict :
  forall items, Forall (fun kv => P (snd kv)) items -> P (VDict items).
Hypothesis HList : forall elems, Forall P elems -> P (VList elems).

Fixpoint pyval_ind_nested (v : pyval) : P v :=
  match v with
  | VNone => HNone
  | VBool b => HBool b
  | VInt z => HInt z
  | VStr s => HStr s
  | VDict items =>
      HDict items
        ((fix go (l : list (string * pyval))
            : Forall (fun kv => P (snd kv)) l :=
            match l with
            | [] => Forall_nil _
            | kv :: r => Forall_cons kv (pyval_ind_nested (snd kv)) (go r)
            end) items)
  | VList elems =>
      HList elems
        ((fix go (l : list pyval) : Forall P l :=
            match l with
            | [] => Forall_nil _
            | x :: r => Forall_cons x (pyval_ind_nested x) (go r)
            end) elems)
  end.
End pyval_induction.

End Py.
Import Py.

(* ================================================================== *)
(** ** Exceptions *)

(** The double quote, for the messages that quote a name. *)
Definition dquote : string := String (ascii_of_nat 34) EmptyString.

Definition quoted (s : string) : string := dquote ++ s ++ dquote.

(** The exceptions of [automx2], and the built-in ones the generator can
    meet.  [FormatError] stands for what [str.format] raises on a
    malformed template. *)
Inductive exn : Type :=
| DomainNotFound (msg : string)
| NoProviderForDomain (msg : string)
| NoServersForDomain (msg : string)
| InvalidServerType (msg : string)
| InvalidAuthenticationType (msg : string)
| LdapLookupError (msg : string)
| TypeError (msg : string)
| AttributeError (msg : string)
| FormatError.

Inductive res (A : Type) : Type :=
| Ok (a : A)
| Raise (e : exn).
Arguments Ok {A} a.
Arguments Raise {A} e.

Definition res_bind {A B : Type} (m : res A) (f : A -> res B) : res B :=
  match m with
  | Ok a => f a
  | Raise e => Raise e
  end.

Declare Scope res_scope.
Delimit Scope res_scope with res.
Notation "x <- m ;; k" := (res_bind m (fun x => k))
  (at level 61, m at next level, right associativity) : res_scope.

(** A [for] loop whose body may raise: the body runs on each element in
    turn, threading the state, and the first exception ends the loop. *)
Definition for_each {A S : Type} (body : S -> A -> res S)
  : list A -> S -> res S :=
  fix loop (l : list A) (s : S) : res S :=
    match l with
    | [] => Ok s
    | a :: rest =>
        match body s a with
        | Ok s' => loop rest s'
        | Raise e => Raise e
        end
    end.

(** The same for a body that replaces the element it visits. *)
Definition for_each_map {A B : Type} (body : A -> res B)
  : list A -> res (list B) :=
  fix loop (l : list A) : res (list B) :=
    match l with
    | [] => Ok []
    | a :: rest =>
        match body a with
        | Ok b =>
            match loop rest with
            | Ok bs => Ok (b :: bs)
            | Raise e => Raise e
            end
        | Raise e => Raise e
        end
    end.

(* ================================================================== *)
(** ** xml.etree.ElementTree *)

Module ET.

(** An element: tag, attributes, text and children ([tail] is never
    set by the generator). *)
Inductive Element : Type :=
| Elem (tag : string) (attrib : list (string * string))
       (text : option string) (children : list Element).

Definition tag (e : Element) : string :=
  match e with Elem t _ _ _ => t end.
Definition attrib (e : Element) : list (string * string) :=
  match e with Elem _ a _ _ => a end.
Definition text (e : Element) : option string :=
  match e with Elem _ _ x _ => x end.
Definition children (e : Element) : list Element :=
  match e with Elem _ _ _ c => c end.

(** [Element(tag, attrib)]: a fresh element without text or children. *)
Definition new (t : string) (a : list (string * string)) : Element :=
  Elem t a None [].

(** [e.text = s] *)
Definition set_text (e : Element) (s : option string) : Element :=
  match e with Elem t a _ c => Elem t a s c end.

(** [parent.append(child)] *)
Definition append (parent child : Element) : Element :=
  match parent with Elem t a x c => Elem t a x (c ++ [child])%list end.

(** [SubElement(parent, tag)] makes a new last child of [parent] and
    returns it; the caller then sets its text or fills it.  The child is
    the last child until the caller is done with it, so the model takes
    the child in its final state: [SubElement parent child] is the parent
    after [SubElement(parent, tag)] and the writes to that child. *)
Definition SubElement (parent child : Element) : Element :=
  append parent child.

End ET.
Import ET.

(* ================================================================== *)
(** ** The persisted model and the directory client

    The classes of [automx2.model] and [automx2.ldap] are read through
    their attributes only. *)

(** Modelled from the spec: the class [Provider] of automx2.model is not
    among the sources; section 3 gives it as a marker whose presence is a
    precondition.  The generator reads no attribute of a provider, it only
    tests that there is one: a row stands for it. *)
Module Provider.
Inductive t : Type := row.
End Provider.

(** Modelled from the spec: the class [Server] of automx2.model is not
    among the sources; the fields are the attributes the generator reads,
    with the kinds section 3 gives them. *)
Module Server.
Record t : Type := {
  type : string;
  name : string;
  port : Z;
  user_name : string;
  authentication : string;
  socket_type : string
}.
End Server.

(** Modelled from the spec: the class [Ldapserver] of automx2.model is not
    among the sources; the fields are the attributes [_ldap_lookup] reads
    (connection parameters, search base, filter template, attribute
    names; section 3). *)
Module Ldapserver.
Record t : Type := {
  name : string;
  port : Z;
  use_ssl : bool;
  bind_user : string;
  bind_password : string;
  search_base : string;
  search_filter : string;
  attr_cn : string;
  attr_uid : string
}.
End Ldapserver.

(** Modelled from the spec: the class [Domain] of automx2.model is not
    among the sources; section 3: a unique name, zero or one provider, an
    ordered collection of servers, an optional directory server. *)
Module Domain.
Record t : Type := {
  name : string;
  provider : option Provider.t;
  servers : list Server.t;
  ldapserver : option Ldapserver.t
}.
End Domain.

(** Modelled from the spec: the status constants of automx2.ldap are not
    among the sources; section 3 gives the status of a lookup result as one
    of three tags, ok, no-match and error. *)
Inductive Status : Type := STATUS_SUCCESS | STATUS_NO_MATCH | STATUS_ERROR.

Definition Status_eqb (a b : Status) : bool :=
  match a, b with
  | STATUS_SUCCESS, STATUS_SUCCESS
  | STATUS_NO_MATCH, STATUS_NO_MATCH
  | STATUS_ERROR, STATUS_ERROR => true
  | _, _ => false
  end.

(** Modelled from the spec: the class [LookupResult] of automx2.ldap is not
    among the sources; section 3: a status tag plus an optional resolved
    common name and uid. *)
Module LookupResult.
Record t : Type := {
  status : Status;
  cn : option string;
  uid : option string
}.
End LookupResult.

(** The arguments of the constructor [LdapAccess(...)]: one session of the
    directory client. *)
Module LdapAccess.
Record t : Type := new {
  hostname : string;
  port : Z;
  use_ssl : bool;
  user : string;
  password : string
}.
End LdapAccess.

(** What [client_config] returns: the [str] of the short cut, or the
    [bytes] of [tostring]. *)
Inductive document : Type :=
| PyStr (s : string)
| PyBytes (b : list Byte.byte).

(** A call of the directory service made by [_ldap_lookup], with the
    address looked up, the server record and the answer. *)
Inductive event : Type :=
| DirectoryLookup (email_address : string) (server : Ldapserver.t)
                  (r : LookupResult.t).

(** A computation that talks to the directory: the calls it made, in
    order, and how it ended. *)
Record run (A : Type) : Type := Run {
  events : list event;
  result : res A
}.
Arguments Run {A} events result.
Arguments events {A} r.
Arguments result {A} r.

Definition pure {A : Type} (r : res A) : run A := Run [] r.
Definition ret {A : Type} (a : A) : run A := Run [] (Ok a).
Definition raise {A : Type} (e : exn) : run A := Run [] (Raise e).

(** Record a call of the directory in the log. *)
Definition emit (e : event) : run unit := Run [e] (Ok tt).

Definition bind {A B : Type} (m : run A) (f : A -> run B) : run B :=
  match result m with
  | Ok a => Run (events m ++ events (f a))%list (result (f a))
  | Raise e => Run (events m) (Raise e)
  end.

Declare Scope run_scope.
Delimit Scope run_scope with run.
Notation "x <- m ;; k" := (bind m (fun x => k))
  (at level 61, m at next level, right associativity) : run_scope.

(* ================================================================== *)
(** ** A sample installation

    Stand-ins for the imported functions, and a small table of domains,
    on which the examples below run the generator. *)

Module Sample.

Fixpoint starts_with (p s : string) : bool :=
  match p, s with
  | EmptyString, _ => true
  | String a p', String b s' => Ascii.eqb a b && starts_with p' s'
  | _, _ => false
  end.

(** [s.replace(old, new)] for a non-empty [old], left to right; [skip]
    counts the characters of a match that are still to be dropped. *)
Fixpoint replace_from (old new : string) (skip : nat) (s : string) : string :=
  match s with
  | EmptyString => EmptyString
  | String c rest =>
      match skip with
      | S n => replace_from old new n rest
      | O =>
          if starts_with old s
          then new ++ replace_from old new (String.length old - 1) rest
          else String c (replace_from old new 0 rest)
      end
  end.

Definition replace (old new s : string) : string := replace_from old new 0 s.


Definition expand_placeholders (s local_part domain_part : string) : string :=
  let address := local_part ++ "@" ++ domain_part in
  replace "%EMAILLOCALPART%" local_part
    (replace "%EMAILDOMAIN%" domain_part
       (replace "%EMAILADDRESS%" address s)).



(** [template.format(arg)] for templates whose only fields are [{}] and
    [{0}]. *)
Definition format (template arg : string) : option string :=
  Some (replace "{0}" arg (replace "{}" arg template)).

Definition unique (n : nat) : string :=
  match n with
  | O => "5B3A0F0E-0000-4000-8000-000000000001"
  | _ => "5B3A0F0E-0000-4000-8000-000000000002"
  end.

Definition render_attrib (a : list (string * string)) : string :=
  String.concat EmptyString
    (map (fun kv => " " ++ fst kv ++ "=" ++ quoted (snd kv)) a).

(** A plain rendering of an element, without escaping. *)
Fixpoint render (e : Element) : string :=
  match e with
  | Elem t a x c =>
      match x, c with
      | None, [] => "<" ++ t ++ render_attrib a ++ " />"
      | _, _ =>
          "<" ++ t ++ render_attrib a ++ ">"
          ++ match x with Some s => s | None => EmptyString end
          ++ String.concat EmptyString (map render c)
          ++ "</" ++ t ++ ">"
      end
  end.

Definition tostring (e : Element) (encoding : string) : list Byte.byte :=
  list_byte_of_string (render e).

(** A directory that knows the entries of a table, by search filter, and
    answers no-match for the rest. *)
Definition directory (entries : list (string * LookupResult.t))
  (session : LdapAccess.t) (search_base search_filter attr_cn attr_uid : string)
  : LookupResult.t :=
  match lookup entries search_filter with
  | Some r => r
  | None =>
      {| LookupResult.status := STATUS_NO_MATCH;
         LookupResult.cn := None;
         LookupResult.uid := None |}
  end.

Definition entries : list (string * LookupResult.t) :=
  [ ("(mail=alice@corp.example)",
     {| LookupResult.status := STATUS_SUCCESS;
        LookupResult.cn := Some "Alice Liddell";
        LookupResult.uid := Some "alice" |});
    ("(mail=carol@corp.example)",
     {| LookupResult.status := STATUS_SUCCESS;
        LookupResult.cn := Some "%EMAILLOCALPART% of %EMAILDOMAIN%";
        LookupResult.uid := Some "carol" |});
    ("(mail=dave@corp.example)",
     {| LookupResult.status := STATUS_SUCCESS;
        LookupResult.cn := None;
        LookupResult.uid := Some "dave" |});
    ("(mail=mallory@corp.example)",
     {| LookupResult.status := STATUS_ERROR;
        LookupResult.cn := None;
        LookupResult.uid := None |}) ].

Definition imap : Server.t :=
  {| Server.type := "imap";
     Server.name := "mail.example.com";
     Server.port := 993;
     Server.user_name := "%EMAILADDRESS%";
     Server.authentication := "plain";
     Server.socket_type := "SSL" |}.

Definition imap_backup : Server.t :=
  {| Server.type := "imap";
     Server.name := "backup.example.com";
     Server.port := 143;
     Server.user_name := "%EMAILLOCALPART%";
     Server.authentication := "NTLM";
     Server.socket_type := "STARTTLS" |}.

Definition smtp : Server.t :=
  {| Server.type := "smtp";
     Server.name := "smtp.example.com";
     Server.port := 587;
     Server.user_name := "%EMAILADDRESS%";
     Server.authentication := "plain";
     Server.socket_type := "STARTTLS" |}.

Definition pop3 : Server.t :=
  {| Server.type := "pop3";
     Server.name := "pop.example.com";
     Server.port := 995;
     Server.user_name := "%EMAILADDRESS%";
     Server.authentication := "digest";
     Server.socket_type := "SSL" |}.

Definition smtp_digest : Server.t :=
  {| Server.type := "smtp";
     Server.name := "smtp.example.com";
     Server.port := 25;
     Server.user_name := "%EMAILLOCALPART%";
     Server.authentication := "digest";
     Server.socket_type := "plain" |}.

Definition provider : Provider.t := Provider.row.

Definition ldapserver : Ldapserver.t :=
  {| Ldapserver.name := "ldap.corp.example";
     Ldapserver.port := 636;
     Ldapserver.use_ssl := true;
     Ldapserver.bind_user := "cn=automx2,dc=corp,dc=example";
     Ldapserver.bind_password := "secret";
     Ldapserver.search_base := "dc=corp,dc=example";
     Ldapserver.search_filter := "(mail={})";
     Ldapserver.attr_cn := "cn";
     Ldapserver.attr_uid := "uid" |}.

Definition domain (name : string) (provider : option Provider.t)
  (servers : list Server.t) (ldapserver : option Ldapserver.t) : Domain.t :=
  {| Domain.name := name;
     Domain.provider := provider;
     Domain.servers := servers;
     Domain.ldapserver := ldapserver |}.

Definition example_com : Domain.t :=
  domain "example.com" (Some provider) [imap; smtp] None.

Definition corp : Domain.t :=
  domain "corp.example" (Some provider) [imap; smtp] (Some ldapserver).

Definition orphan : Domain.t :=
  domain "orphan.example" None [imap; smtp] (Some ldapserver).

Definition empty : Domain.t :=
  domain "empty.example" (Some provider) [] None.

Definition pop_only : Domain.t :=
  domain "pop.example" (Some provider) [pop3] None.

Definition digest : Domain.t :=
  domain "digest.example" (Some provider) [imap; smtp_digest] None.

Definition mixed : Domain.t :=
  domain "mixed.example" (Some provider) [smtp_digest; pop3] None.

Definition imap_only : Domain.t :=
  domain "imaponly.example" (Some provider) [imap] None.

Definition smtp_only : Domain.t :=
  domain "smtponly.example" (Some provider) [smtp] None.

Definition two_imap : Domain.t :=
  domain "twoimap.example" (Some provider) [imap; imap_backup; smtp] None.

Definition domains : list Domain.t :=
  [ example_com; corp; orphan; empty; pop_only; digest; mixed;
    imap_only; smtp_only; two_imap ].

(** A tree with one boolean, one integer, one string and a list of two
    sub-trees. *)
Definition tree : pyval :=
  VDict
    [ ("Enabled", VBool true);
      ("Version", VInt 3);
      ("Owner", VStr "%EMAILLOCALPART%");
      ("Accounts",
        VList
          [ VDict [("Address", VStr "%EMAILADDRESS%")];
            VDict [("Host", VStr "mail.%EMAILDOMAIN%");
                   ("Secure", VBool false)] ]) ].


End Sample.

(* ================================================================== *)
(** ** automx2.generators *)

Section Generators.

(** *** What the generators import

    Code of automx2 and of the Python library that is not part of the
    sources at hand, taken as parameters. *)

(** [automx2.IDENTIFIER] *)
Variable IDENTIFIER : string.

(** [automx2.util.unique()]: [unique n] is what the call returns when it
    is call number [n] of the request. *)
Variable unique : nat -> string.

(** [automx2.util.expand_placeholders(string, local_part, domain_part)] *)
Variable expand_placeholders : string -> string -> string -> string.

(** [template.format(arg)] of [str]; [None] when it raises. *)
Variable str_format : string -> string -> option string.

(** [LdapAccess.lookup(search_base, search_filter, attr_cn, attr_uid)] of
    automx2.ldap, on the session [LdapAccess(...)]. *)
Variable LdapAccess_lookup :
  LdapAccess.t -> string -> string -> string -> string -> LookupResult.t.

(** [xml.etree.ElementTree.tostring(element, encoding)] *)
Variable tostring : Element -> string -> list Byte.byte.

(** The rows of the table of domains. *)
Variable domains : list Domain.t.

(** [Domain.query.filter_by(name=n).first()] *)
Definition Domain_query_first (n : string) : option Domain.t :=
  find (fun d => String.eqb (Domain.name d) n) domains.

(** *** generators/__init__.py *)

Definition branded_id (id_ : string) : string :=
  IDENTIFIER ++ "-" ++ id_.

(** [ConfigGenerator._ldap_lookup] *)
Definition _ldap_lookup (email_address : string) (server : Ldapserver.t)
  : run LookupResult.t :=
  let ldap :=
    LdapAccess.new (Ldapserver.name server) (Ldapserver.port server)
      (Ldapserver.use_ssl server) (Ldapserver.bind_user server)
      (Ldapserver.bind_password server) in
  match str_format (Ldapserver.search_filter server) email_address with
  | None => raise FormatError
  | Some search_filter =>
      let r :=
        LdapAccess_lookup ldap (Ldapserver.search_base server) search_filter
          (Ldapserver.attr_cn server) (Ldapserver.attr_uid server) in
      (_ <- emit (DirectoryLookup email_address server r) ;;
       if Status_eqb (LookupResult.status r) STATUS_ERROR
       then raise (LdapLookupError "LDAP bind failed")
       else ret r)%run
  end.

(** *** generators/apple.py *)

Definition AUTH_MAP : list (string * string) :=
  [ ("none", "EmailAuthNone");
    ("NTLM", "EmailAuthNTLM");
    ("plain", "EmailAuthPassword") ].

Definition TYPE_DIRECTION_MAP : list (string * string) :=
  [ ("imap", "Incoming");
    ("smtp", "Outgoing") ].

Definition _bool_element (parent : Element) (key : string) (value : bool)
  : Element :=
  let parent := SubElement parent (set_text (new "key" []) (Some key)) in
  let v := if value then "true" else "false" in
  SubElement parent (new v []).

Definition _int_element (parent : Element) (key : string) (value : Z)
  : Element :=
  let parent := SubElement parent (set_text (new "key" []) (Some key)) in
  SubElement parent (set_text (new "integer" []) (Some (str value))).

(** The [else] branch of [_subtree] hands over whatever is left, a [str]
    or [None]: the text is an optional string. *)
Definition _str_element (parent : Element) (key : string)
  (value : option string) : Element :=
  let parent := SubElement parent (set_text (new "key" []) (Some key)) in
  SubElement parent (set_text (new "string" []) value).

(** The tests are those of the source, in its order.  A branch that has
    tested the class opens the object with a [match], whose other arm is
    never taken. *)
Fixpoint _subtree (parent : Element) (key : string) (value : pyval)
  {struct value} : Element :=
  if isinstance value Cbool then
    _bool_element parent key (truth value)
  else if isinstance value Cdict then
    match value with
    | VDict items =>
        let p :=
          fold_left (fun p kv => _subtree p (fst kv) (snd kv))
            items (new "dict" []) in
        SubElement parent p
    | _ => parent
    end
  else if isinstance value Cint then
    _int_element parent key (as_int value)
  else if isinstance value Clist then
    match value with
    | VList elems =>
        let parent :=
          SubElement parent (set_text (new "key" []) (Some key)) in
        let p :=
          fold_left (fun p v => _subtree p "dunno" v)
            elems (new "array" []) in
        SubElement parent p
    | _ => parent
    end
  else
    _str_element parent key (as_text value).

(** The object graph built by [_payload].  Python returns two references,
    [inner] and [outer], and [outer['PayloadContent']] is a list whose one
    element is the object [inner] itself, not a copy: what [client_config]
    writes to [inner] afterwards is seen through [outer].  The model keeps
    the graph as one tree, the store [outer], in which the dictionary
    [inner] lives at [outer['PayloadContent'][0]]; the reference [inner] is
    that place, and [ref_getitem] and [ref_setitem] read and write the
    dictionary there. *)
Definition _payload (local domain : string) : ref * dict :=
  let address := local ++ "@" ++ domain in
  let uuid := unique 0 in
  let inner : dict :=
    [ ("EmailAccountDescription", VStr address);
      ("EmailAccountName", VNone);
      ("EmailAccountType", VStr "EmailTypeIMAP");
      ("EmailAddress", VStr address);
      ("IncomingMailServerAuthentication", VStr "EmailAuthPassword");
      ("IncomingMailServerHostName", VNone);
      ("IncomingMailServerPortNumber", VInt (-1));
      ("IncomingMailServerUseSSL", VNone);
      ("IncomingMailServerUsername", VNone);
      ("OutgoingMailServerAuthentication", VStr "EmailAuthPassword");
      ("OutgoingMailServerHostName", VNone);
      ("OutgoingMailServerPortNumber", VInt (-1));
      ("OutgoingMailServerUseSSL", VNone);
      ("OutgoingMailServerUsername", VNone);
      ("OutgoingPasswordSameAsIncomingPassword", VBool true);
      ("PayloadDescription",
        VStr ("Email account configuration for " ++ address));
      ("PayloadDisplayName", VStr domain);
      ("PayloadIdentifier", VStr ("com.apple.mail.managed." ++ uuid));
      ("PayloadType", VStr "com.apple.mail.managed");
      ("PayloadUUID", VStr uuid);
      ("PayloadVersion", VInt 1);
      ("SMIMEEnablePerMessageSwitch", VBool false);
      ("SMIMEEnabled", VBool false);
      ("SMIMEEncryptionEnabled", VBool false);
      ("SMIMESigningEnabled", VBool false);
      ("allowMailDrop", VBool false);
      ("disableMailRecentsSyncing", VBool false) ] in
  let uuid := unique 1 in
  let outer : dict :=
    [ ("PayloadContent", VList [VDict inner]);
      ("PayloadDisplayName", VStr ("Mail account " ++ domain));
      ("PayloadIdentifier", VStr (branded_id uuid));
      ("PayloadRemovalDisallowed", VBool false);
      ("PayloadType", VStr "Configuration");
      ("PayloadUUID", VStr uuid);
      ("PayloadVersion", VInt 1) ] in
  (("PayloadContent", 0%nat), outer).

Definition class_name (c : pyclass) : string :=
  match c with
  | Cbool => "bool"
  | Cint => "int"
  | Cstr => "str"
  | Cdict => "dict"
  | Clist => "list"
  | CNoneType => "NoneType"
  end.

Definition missing_value (key : string) : exn :=
  TypeError ("Missing value for payload key " ++ quoted key).

(** [_sanitise(data, local, domain)] changes [data] in place; the model
    returns the object after the call.  [data.items()] raises
    [AttributeError] for an object that is no [dict].  The loop visits the
    items in insertion order; [acc] is the dictionary as the loop has left
    it so far, into which [data[key] = new] writes, and into which the
    model also puts back a nested list or dictionary that the recursive
    call has changed in place. *)
Fixpoint _sanitise (data : pyval) (local domain : string) {struct data}
  : res pyval :=
  match data with
  | VDict items =>
      (acc <-
         for_each
           (fun (acc : dict) (item : string * pyval) =>
              let key := fst item in
              let value := snd item in
              if is_None value then Raise (missing_value key)
              else if isinstance value Clist then
                match value with
                | VList elems =>
                    elems' <-
                      for_each_map (fun v => _sanitise v local domain)
                        elems ;;
                    Ok (setitem acc key (VList elems'))
                | _ => Ok acc
                end
              else if isinstance value Cdict then
                match value with
                | VDict _ =>
                    value' <- _sanitise value local domain ;;
                    Ok (setitem acc key value')
                | _ => Ok acc
                end
              else if isinstance value Cstr then
                match value with
                | VStr s =>
                    let new := expand_placeholders s local domain in
                    Ok (setitem acc key (VStr new))
                | _ => Ok acc
                end
              else Ok acc)
           items items ;;
       Ok (VDict acc))%res
  | _ =>
      Raise (AttributeError
               ("'" ++ class_name (type_of data)
                ++ "' object has no attribute 'items'"))
  end.

(** Map socket type to True (use SSL) or False (do not use SSL). *)
Definition _map_socket_type (server : Server.t) : bool :=
  if String.eqb "SSL" (Server.socket_type server)
     || String.eqb "STARTTLS" (Server.socket_type server)
  then true
  else false.

Definition _map_authentication (server : Server.t) : res string :=
  match lookup AUTH_MAP (Server.authentication server) with
  | Some a => Ok a
  | None =>
      Raise (InvalidAuthenticationType
               ("Invalid authentication type "
                ++ quoted (Server.authentication server)))
  end.

(** The body of the loop over [domain.servers] in [client_config]; the
    store [outer] holds the dictionary that [inner] refers to. *)
Definition client_config_server (inner : ref) (outer : dict)
  (server : Server.t) : res dict :=
  match lookup TYPE_DIRECTION_MAP (Server.type server) with
  | None =>
      Raise (InvalidServerType
               ("Invalid server type " ++ quoted (Server.type server)))
  | Some direction =>
      let outer :=
        ref_setitem outer inner (direction ++ "MailServerHostName")
          (VStr (Server.name server)) in
      let outer :=
        ref_setitem outer inner (direction ++ "MailServerPortNumber")
          (VInt (Server.port server)) in
      let outer :=
        ref_setitem outer inner (direction ++ "MailServerUsername")
          (VStr (Server.user_name server)) in
      (auth <- _map_authentication server ;;
       let outer :=
         ref_setitem outer inner (direction ++ "MailServerAuthentication")
           (VStr auth) in
       let outer :=
         ref_setitem outer inner (direction ++ "MailServerUseSSL")
           (VBool (_map_socket_type server)) in
       Ok outer)%res
  end.

(** The name that goes into the document: the common name of the lookup
    when there is one, else the caller's. *)
Definition client_config_realname (lookup_result : option LookupResult.t)
  (realname : string) : string :=
  match lookup_result with
  | Some r =>
      match LookupResult.cn r with
      | Some cn => if String.eqb cn EmptyString then realname else cn
      | None => realname
      end
  | None => realname
  end.

(** [client_config] from the call of [_payload] on: payload, servers,
    name, sanitisation; the result is the [plist] element. *)
Definition client_config_plist (local_part domain_part realname : string)
  (domain : Domain.t) (lookup_result : option LookupResult.t)
  : res Element :=
  (let '(inner, outer) := _payload local_part domain_part in
   outer <-
     for_each (client_config_server inner) (Domain.servers domain) outer ;;
   let realname := client_config_realname lookup_result realname in
   let outer := ref_setitem outer inner "EmailAccountName" (VStr realname) in
   outer <- _sanitise (VDict outer) local_part domain_part ;;
   let plist := new "plist" [("version", "1.0")] in
   Ok (_subtree plist EmptyString outer))%res.

(** [AppleGenerator.client_config] *)
Definition client_config (local_part domain_part realname password : string)
  : run document :=
  match Domain_query_first domain_part with
  | None =>
      raise (DomainNotFound
               ("Domain " ++ quoted domain_part ++ " not found"))
  | Some domain =>
      match Domain.provider domain with
      | None =>
          raise (NoProviderForDomain
                   ("No provider for domain " ++ quoted domain_part))
      | Some provider =>
          match Domain.servers domain with
          | [] =>
              raise (NoServersForDomain
                       ("No servers for domain " ++ quoted domain_part))
          | _ :: _ =>
              let finish (lookup_result : option LookupResult.t) :=
                pure (plist <-
                        client_config_plist local_part domain_part realname
                          domain lookup_result ;;
                      Ok (PyBytes (tostring plist "utf-8")))%res in
              match Domain.ldapserver domain with
              | Some ldapserver =>
                  let email_address := local_part ++ "@" ++ domain_part in
                  (lookup_result <- _ldap_lookup email_address ldapserver ;;
                   if Status_eqb (LookupResult.status lookup_result)
                        STATUS_NO_MATCH
                   then ret (PyStr EmptyString)
                   else finish (Some lookup_result))%run
              | None => finish None
              end
          end
      end
  end.

(** *** Notions the properties are stated with *)

(** What the directory answers to the call [_ldap_lookup] makes for an
    address, if the search filter can be formatted. *)
Definition directory_answer (email_address : string) (server : Ldapserver.t)
  : option LookupResult.t :=
  match str_format (Ldapserver.search_filter server) email_address with
  | None => None
  | Some search_filter =>
      Some (LdapAccess_lookup
              (LdapAccess.new (Ldapserver.name server) (Ldapserver.port server)
                 (Ldapserver.use_ssl server) (Ldapserver.bind_user server)
                 (Ldapserver.bind_password server))
              (Ldapserver.search_base server) search_filter
              (Ldapserver.attr_cn server) (Ldapserver.attr_uid server))
  end.

(** The directory step of [client_config] lets the request through with
    [lookup_result]: the domain has no directory server, or the directory
    gave an answer whose status is neither error nor no-match. *)
Definition lookup_passes (local_part domain_part : string) (domain : Domain.t)
  (lookup_result : option LookupResult.t) : Prop :=
  match Domain.ldapserver domain with
  | None => lookup_result = None
  | Some ldapserver =>
      exists r,
        lookup_result = Some r
        /\ directory_answer (local_part ++ "@" ++ domain_part) ldapserver
           = Some r
        /\ LookupResult.status r <> STATUS_ERROR
        /\ LookupResult.status r <> STATUS_NO_MATCH
  end.

(** The element [<key>name</key>]. *)
Definition key_element (name : string) : Element :=
  Elem "key" [] (Some name) [].

(** [parent] with more children after those it has. *)
Definition add_children (parent : Element) (more : list Element) : Element :=
  match parent with
  | Elem t a x c => Elem t a x (c ++ more)%list
  end.

(** The markup of one node of a payload tree, stated on its own: the
    elements a node contributes to its parent, in order.  A scalar gives a
    key element and a typed element; a list gives a key element and an
    array; a mapping gives its container alone. *)
Fixpoint markup (key : string) (value : pyval) : list Element :=
  match value with
  | VNone => [key_element key; Elem "string" [] None []]
  | VBool b =>
      [key_element key; Elem (if b then "true" else "false") [] None []]
  | VInt z => [key_element key; Elem "integer" [] (Some (str z)) []]
  | VStr s => [key_element key; Elem "string" [] (Some s) []]
  | VDict items =>
      [Elem "dict" [] None
         (flat_map (fun kv => markup (fst kv) (snd kv)) items)]
  | VList elems =>
      [key_element key;
       Elem "array" [] None (flat_map (markup "dunno") elems)]
  end.

(** How many elements with the tag [t] there are in [e], itself and all
    that is below it. *)
Fixpoint tags_in (t : string) (e : Element) : nat :=
  match e with
  | Elem t' _ _ c =>
      (if String.eqb t' t then 1 else 0) + list_sum (map (tags_in t) c)
  end.

(** How many leaves of a tree satisfy [p]. *)
Fixpoint count_leaves (p : pyval -> bool) (value : pyval) : nat :=
  match value with
  | VDict items => list_sum (map (fun kv => count_leaves p (snd kv)) items)
  | VList elems => list_sum (map (count_leaves p) elems)
  | _ => if p value then 1 else 0
  end.

(** The leaves that are instances of [bool], by truth value, and the
    instances of [int] that are no [bool]. *)
Definition is_bool_leaf (b : bool) (value : pyval) : bool :=
  isinstance value Cbool && Bool.eqb (truth value) b.

Definition is_proper_int_leaf (value : pyval) : bool :=
  isinstance value Cint && negb (isinstance value Cbool).

(** The body of the loop of [_sanitise], by name. *)
Definition sanitise_item (local domain : string) (acc : dict)
  (item : string * pyval) : res dict :=
  let key := fst item in
  let value := snd item in
  if is_None value then Raise (missing_value key)
  else if isinstance value Clist then
    match value with
    | VList elems =>
        (elems' <-
           for_each_map (fun v => _sanitise v local domain) elems ;;
         Ok (setitem acc key (VList elems')))%res
    | _ => Ok acc
    end
  else if isinstance value Cdict then
    match value with
    | VDict _ =>
        (value' <- _sanitise value local domain ;;
         Ok (setitem acc key value'))%res
    | _ => Ok acc
    end
  else if isinstance value Cstr then
    match value with
    | VStr s => Ok (setitem acc key (VStr (expand_placeholders s local domain)))
    | _ => Ok acc
    end
  else Ok acc.

Fixpoint distinct (l : list string) : bool :=
  match l with
  | [] => true
  | x :: rest => negb (existsb (String.eqb x) rest) && distinct rest
  end.

(** The shape of a payload tree below a node: the keys of a mapping are
    distinct, as those of a [dict] are, and the elements of a list are
    mappings. *)
Fixpoint well_formed (value : pyval) : bool :=
  match value with
  | VDict items =>
      distinct (keys items)
      && forallb (fun kv => well_formed (snd kv)) items
  | VList elems =>
      forallb (fun e => isinstance e Cdict && well_formed e) elems
  | _ => true
  end.

(** A payload tree: a mapping of that shape. *)
Definition payload_tree (data : pyval) : Prop :=
  isinstance data Cdict = true /\ well_formed data = true.

(** The tree with every string leaf replaced by its expansion, in nested
    mappings and in the elements of lists alike. *)
Fixpoint expand_tree (local domain : string) (value : pyval) : pyval :=
  match value with
  | VStr s => VStr (expand_placeholders s local domain)
  | VDict items =>
      VDict (map (fun kv => (fst kv, expand_tree local domain (snd kv))) items)
  | VList elems => VList (map (expand_tree local domain) elems)
  | _ => value
  end.

(** The keys of the null leaves of a tree, in the order of the walk;
    [key] is the key the value itself stands under. *)
Fixpoint null_keys (key : string) (value : pyval) : list string :=
  match value with
  | VNone => [key]
  | VDict items => flat_map (fun kv => null_keys (fst kv) (snd kv)) items
  | VList elems => flat_map (null_keys key) elems
  | _ => []
  end.

(** The string values of a tree, in the order of the walk. *)
Fixpoint string_leaves (value : pyval) : list string :=
  match value with
  | VStr s => [s]
  | VDict items => flat_map (fun kv => string_leaves (snd kv)) items
  | VList elems => flat_map string_leaves elems
  | _ => []
  end.

(** What [_sanitise] is to give on a tree: the expanded tree, or the error
    that names the first null leaf. *)
Definition sanitised (local domain : string) (key : string) (value : pyval)
  : res pyval :=
  match null_keys key value with
  | [] => Ok (expand_tree local domain value)
  | k :: _ => Raise (missing_value k)
  end.

(** What the induction on a tree carries: a mapping is sanitised as a
    whole, and a list element by element. *)
Definition sanitise_ok (local domain : string) (value : pyval) : Prop :=
  well_formed value = true ->
  forall key : string,
    match value with
    | VDict _ =>
        _sanitise value local domain = sanitised local domain key value
    | VList elems =>
        for_each_map (fun v => _sanitise v local domain) elems
        = match null_keys key value with
          | [] => Ok (map (expand_tree local domain) elems)
          | k :: _ => Raise (missing_value k)
          end
    | _ => True
    end.

(** A server the per-server fill accepts: a type with a direction, an
    authentication kind with a scheme. *)
Definition known_type (server : Server.t) : Prop :=
  Server.type server = "imap" \/ Server.type server = "smtp".

Definition known_authentication (server : Server.t) : Prop :=
  Server.authentication server = "none"
  \/ Server.authentication server = "NTLM"
  \/ Server.authentication server = "plain".

Definition valid_server (server : Server.t) : Prop :=
  known_type server /\ known_authentication server.

(** The fields of one direction as a server sets them. *)
Definition fill_direction (inner : ref) (direction : string)
  (server : option Server.t) (outer : dict) : dict :=
  match server with
  | None => outer
  | Some s =>
      let auth :=
        match lookup AUTH_MAP (Server.authentication s) with
        | Some a => a
        | None => EmptyString
        end in
      let outer :=
        ref_setitem outer inner (direction ++ "MailServerHostName")
          (VStr (Server.name s)) in
      let outer :=
        ref_setitem outer inner (direction ++ "MailServerPortNumber")
          (VInt (Server.port s)) in
      let outer :=
        ref_setitem outer inner (direction ++ "MailServerUsername")
          (VStr (Server.user_name s)) in
      let outer :=
        ref_setitem outer inner (direction ++ "MailServerAuthentication")
          (VStr auth) in
      ref_setitem outer inner (direction ++ "MailServerUseSSL")
        (VBool (_map_socket_type s))
  end.

(** The store in which the incoming fields are those of [incoming] and
    the outgoing fields those of [outgoing], or those of the base payload
    where there is no such server. *)
Definition filled (local domain : string)
  (incoming outgoing : option Server.t) : dict :=
  let '(inner, outer) := _payload local domain in
  fill_direction inner "Outgoing" outgoing
    (fill_direction inner "Incoming" incoming outer).

(** The reference [_payload] returns. *)
Definition inner_ref : ref := ("PayloadContent", 0%nat).

(** The last server of a type, or [init] if there is none. *)
Definition last_of_type (t : string) (servers : list Server.t)
  (init : option Server.t) : option Server.t :=
  fold_left
    (fun acc s => if String.eqb (Server.type s) t then Some s else acc)
    servers init.

(** Reading a serialised mapping: the element that follows the key element
    with the text [name]. *)
Fixpoint value_after_key (name : string) (elements : list Element)
  : option Element :=
  match elements with
  | [] => None
  | k :: rest =>
      match rest with
      | [] => None
      | v :: _ =>
          if String.eqb (tag k) "key"
             && match text k with
                | Some n => String.eqb n name
                | None => false
                end
          then Some v
          else value_after_key name rest
      end
  end.

(** The field [name] of the account description in a document: in the
    mapping that is the one element of the array under [PayloadContent]. *)
Definition account_field (plist : Element) (name : string) : option Element :=
  match children plist with
  | [outer] =>
      match value_after_key "PayloadContent" (children outer) with
      | Some array =>
          match children array with
          | [inner] => value_after_key name (children inner)
          | _ => None
          end
      | None => None
      end
  | _ => None
  end.

(** The element [<string>s</string>]. *)
Definition string_element (s : string) : Element :=
  Elem "string" [] (Some s) [].

(** *** Notions for the further properties *)

(** The typed element a value that is no mapping is written as: the one
    that follows its key element.  A mapping has none. *)
Definition value_element (value : pyval) : option Element :=
  nth_error (markup EmptyString value) 1.

(** The texts of the [string] elements of a document, in document order. *)
Fixpoint string_texts (e : Element) : list (option string) :=
  match e with
  | Elem t _ x c =>
      ((if String.eqb t "string" then [x] else [])
       ++ flat_map string_texts c)%list
  end.

(** A tree with the contents of its strings blanked: what is left is the
    keys in their order, the booleans, the integers, the nulls and the
    lengths of the lists. *)
Fixpoint skeleton (value : pyval) : pyval :=
  match value with
  | VStr _ => VStr EmptyString
  | VDict items => VDict (map (fun kv => (fst kv, skeleton (snd kv))) items)
  | VList elems => VList (map skeleton elems)
  | _ => value
  end.

(** The field [name] of the envelope of a document. *)
Definition envelope_field (plist : Element) (name : string) : option Element :=
  match children plist with
  | [outer] => value_after_key name (children outer)
  | _ => None
  end.

(* ================================================================== *)
(** ** Properties *)

(** *** The directory lookup *)

Lemma Status_eqb_eq (a b : Status) : Status_eqb a b = true <-> a = b.
Proof. destruct a, b; simpl; split; congruence. Qed.

Lemma Status_eqb_neq (a b : Status) : Status_eqb a b = false <-> a <> b.
Proof. destruct a, b; simpl; split; congruence. Qed.

Lemma ldap_lookup_run (email_address : string) (server : Ldapserver.t) :
  _ldap_lookup email_address server =
  match directory_answer email_address server with
  | None => Run [] (Raise FormatError)
  | Some r =>
      Run [DirectoryLookup email_address server r]
        (if Status_eqb (LookupResult.status r) STATUS_ERROR
         then Raise (LdapLookupError "LDAP bind failed")
         else Ok r)
  end.
Proof.
  unfold _ldap_lookup, directory_answer.
  destruct (str_format _ _) as [f|]; [|reflexivity].
  unfold bind, emit; simpl.
  destruct (Status_eqb _ _); reflexivity.
Qed.

(** C4. The lookup helper raises [LdapLookupError] exactly when the answer
    of the directory client has the status error, and hands any other
    answer on unchanged; the call it made is the one in its log. *)
Theorem ldap_lookup_raises_iff_status_error :
  forall (email_address : string) (server : Ldapserver.t),
    ((exists msg,
         result (_ldap_lookup email_address server)
         = Raise (LdapLookupError msg))
     <->
     (exists r,
         In (DirectoryLookup email_address server r)
            (events (_ldap_lookup email_address server))
         /\ LookupResult.status r = STATUS_ERROR))
    /\
    (forall r,
        In (DirectoryLookup email_address server r)
           (events (_ldap_lookup email_address server)) ->
        LookupResult.status r <> STATUS_ERROR ->
        result (_ldap_lookup email_address server) = Ok r)
    /\
    (forall r,
        directory_answer email_address server = Some r ->
        events (_ldap_lookup email_address server)
        = [DirectoryLookup email_address server r]).
Proof.
  intros email_address server.
  rewrite ldap_lookup_run.
  destruct (directory_answer email_address server) as [r0|]; simpl.
  - repeat split.
    + intros [msg H]. exists r0. split; [now left|].
      destruct (Status_eqb (LookupResult.status r0) STATUS_ERROR) eqn:E.
      * now apply Status_eqb_eq.
      * discriminate.
    + intros [r [[H|[]] Hs]]. injection H as <-.
      apply Status_eqb_eq in Hs. rewrite Hs. eauto.
    + intros r [H|[]] Hs. injection H as <-.
      apply Status_eqb_neq in Hs. now rewrite Hs.
    + intros r H. now injection H as <-.
  - repeat split.
    + intros [msg H]. discriminate.
    + intros [r [[] _]].
    + intros r [].
    + discriminate.
Qed.

(** *** Resolution of domain, provider and servers *)

Lemma Domain_query_first_absent (n : string) :
  (forall d, In d domains -> Domain.name d <> n) ->
  Domain_query_first n = None.
Proof.
  unfold Domain_query_first.
  induction domains as [|d ds IH]; intros H; simpl; [reflexivity|].
  destruct (String.eqb_spec (Domain.name d) n) as [E|_].
  - exfalso. apply (H d); [now left | exact E].
  - apply IH. intros d' Hd'. apply H. now right.
Qed.

Lemma Domain_query_first_present (n : string) (d : Domain.t) :
  Domain_query_first n = Some d -> In d domains /\ Domain.name d = n.
Proof.
  unfold Domain_query_first. intros H.
  apply find_some in H. destruct H as [Hin E].
  split; [exact Hin | now apply String.eqb_eq].
Qed.

(** [client_config] once domain, provider and servers are there. *)
Lemma client_config_resolved
  (local_part domain_part realname password : string)
  (domain : Domain.t) (provider : Provider.t) :
  Domain_query_first domain_part = Some domain ->
  Domain.provider domain = Some provider ->
  Domain.servers domain <> [] ->
  client_config local_part domain_part realname password =
  match Domain.ldapserver domain with
  | None =>
      Run []
        (plist <- client_config_plist local_part domain_part realname
                    domain None ;;
         Ok (PyBytes (tostring plist "utf-8")))%res
  | Some ldapserver =>
      match directory_answer (local_part ++ "@" ++ domain_part) ldapserver with
      | None => Run [] (Raise FormatError)
      | Some r =>
          Run [DirectoryLookup (local_part ++ "@" ++ domain_part) ldapserver r]
            match LookupResult.status r with
            | STATUS_ERROR => Raise (LdapLookupError "LDAP bind failed")
            | STATUS_NO_MATCH => Ok (PyStr EmptyString)
            | STATUS_SUCCESS =>
                (plist <- client_config_plist local_part domain_part realname
                            domain (Some r) ;;
                 Ok (PyBytes (tostring plist "utf-8")))%res
            end
      end
  end.
Proof.
  intros Hd Hp Hs. unfold client_config. rewrite Hd, Hp.
  destruct (Domain.servers domain) as [|s0 ss] eqn:Es; [congruence|].
  destruct (Domain.ldapserver domain) as [ldapserver|]; [|reflexivity].
  rewrite ldap_lookup_run.
  destruct (directory_answer _ _) as [r|]; [|reflexivity].
  unfold bind, pure, ret, raise; simpl.
  destruct (LookupResult.status r) eqn:E; simpl; rewrite ?E; reflexivity.
Qed.

(** C2. Domain, provider and servers are resolved in this order, each
    failing with its own error: [DomainNotFound] for a name no row of the
    table has, [NoProviderForDomain] for a domain without provider,
    [NoServersForDomain] for a domain with a provider and no server. *)
Theorem client_config_resolution_errors :
  forall local_part domain_part realname password : string,
    ((forall d, In d domains -> Domain.name d <> domain_part) ->
     client_config local_part domain_part realname password =
     raise (DomainNotFound ("Domain " ++ quoted domain_part ++ " not found")))
    /\
    (forall domain,
        Domain_query_first domain_part = Some domain ->
        Domain.provider domain = None ->
        client_config local_part domain_part realname password =
        raise (NoProviderForDomain
                 ("No provider for domain " ++ quoted domain_part)))
    /\
    (forall domain provider,
        Domain_query_first domain_part = Some domain ->
        Domain.provider domain = Some provider ->
        Domain.servers domain = [] ->
        client_config local_part domain_part realname password =
        raise (NoServersForDomain
                 ("No servers for domain " ++ quoted domain_part))).
Proof.
  intros local_part domain_part realname password. repeat split.
  - intros H. unfold client_config.
    now rewrite (Domain_query_first_absent _ H).
  - intros domain Hd Hp. unfold client_config. now rewrite Hd, Hp.
  - intros domain provider Hd Hp Hs. unfold client_config.
    now rewrite Hd, Hp, Hs.
Qed.


(** *** The maps of socket types and authentication kinds *)

(** C6. The socket type decides the SSL flag for every server: [SSL] and
    [STARTTLS] give true, any other value gives false. *)
Theorem map_socket_type_total :
  forall server : Server.t,
    (Server.socket_type server = "SSL" -> _map_socket_type server = true)
    /\ (Server.socket_type server = "STARTTLS" ->
        _map_socket_type server = true)
    /\ (Server.socket_type server <> "SSL" ->
        Server.socket_type server <> "STARTTLS" ->
        _map_socket_type server = false).
Proof.
  intros server. unfold _map_socket_type.
  destruct (String.eqb_spec "SSL" (Server.socket_type server)) as [E1|N1];
    destruct (String.eqb_spec "STARTTLS" (Server.socket_type server))
      as [E2|N2]; simpl; repeat split; intros; congruence.
Qed.

(** *** Serialisation *)

Lemma add_children_nil (parent : Element) : add_children parent [] = parent.
Proof. destruct parent; simpl. now rewrite app_nil_r. Qed.

Lemma add_children_app (parent : Element) (a b : list Element) :
  add_children (add_children parent a) b = add_children parent (a ++ b)%list.
Proof. destruct parent; simpl. now rewrite app_assoc. Qed.

Lemma SubElement_add (parent child : Element) :
  SubElement parent child = add_children parent [child].
Proof. now destruct parent. Qed.

Lemma fold_subtree_markup {A : Type} (f : Element -> A -> Element)
  (g : A -> list Element) (l : list A) :
  Forall (fun a => forall p, f p a = add_children p (g a)) l ->
  forall p, fold_left f l p = add_children p (flat_map g l).
Proof.
  induction 1 as [|a l Ha _ IH]; intros p; simpl.
  - now rewrite add_children_nil.
  - now rewrite Ha, IH, add_children_app.
Qed.

Ltac leaf_markup parent :=
  destruct parent; simpl;
  unfold _bool_element, _int_element, _str_element, SubElement, append;
  simpl; rewrite <- app_assoc; reflexivity.

(** [_subtree] appends to the parent the markup of the node, and leaves the
    rest of the parent alone. *)
Lemma subtree_markup (value : pyval) :
  forall (parent : Element) (key : string),
    _subtree parent key value = add_children parent (markup key value).
Proof.
  induction value as [| b | z | s | items IH | elems IH]
    using pyval_ind_nested; intros parent key.
  - leaf_markup parent.
  - destruct b; leaf_markup parent.
  - leaf_markup parent.
  - leaf_markup parent.
  - simpl. rewrite SubElement_add. f_equal. f_equal.
    rewrite (fold_subtree_markup _ (fun kv => markup (fst kv) (snd kv))).
    + reflexivity.
    + eapply Forall_impl; [|exact IH]. intros kv H p. apply H.
  - simpl. rewrite !SubElement_add, add_children_app. f_equal. simpl.
    f_equal. f_equal.
    rewrite (fold_subtree_markup _ (markup "dunno")).
    + reflexivity.
    + eapply Forall_impl; [|exact IH]. intros v H p. apply H.
Qed.

(** C8, as the code has it.  Every node gives one group of elements, the
    entries of a mapping in insertion order: a boolean, an integer and a
    string give a key element and a typed element; a list gives a key
    element and an array that holds the markup of its elements; a mapping
    gives its [dict] container alone, with no key element, so that a
    mapping which is an element of an array carries no key. *)
Theorem subtree_one_group_per_node :
  forall (parent : Element) (key : string),
    (forall b : bool,
        _subtree parent key (VBool b)
        = add_children parent
            [key_element key;
             Elem (if b then "true" else "false") [] None []])
    /\ (forall z : Z,
           _subtree parent key (VInt z)
           = add_children parent
               [key_element key; Elem "integer" [] (Some (str z)) []])
    /\ (forall s : string,
           _subtree parent key (VStr s)
           = add_children parent
               [key_element key; Elem "string" [] (Some s) []])
    /\ (forall items : dict,
           _subtree parent key (VDict items)
           = add_children parent
               [Elem "dict" [] None
                  (flat_map (fun kv => markup (fst kv) (snd kv)) items)])
    /\ (forall elems : list pyval,
           _subtree parent key (VList elems)
           = add_children parent
               [key_element key;
                Elem "array" [] None (flat_map (markup "dunno") elems)])
    /\ (forall value : pyval,
           _subtree parent key value
           = add_children parent (markup key value))
    /\ (forall items : dict,
           Forall (fun e => tag e <> "key") (markup "dunno" (VDict items))).
Proof.
  intros parent key.
  repeat split; intros; try now rewrite subtree_markup.
  repeat constructor. discriminate.
Qed.

Lemma tags_in_Elem (t t' : string) (a : list (string * string))
  (x : option string) (c : list Element) :
  tags_in t (Elem t' a x c)
  = (if String.eqb t' t then 1 else 0) + list_sum (map (tags_in t) c).
Proof. reflexivity. Qed.

Lemma tags_in_add_children (t : string) (parent : Element)
  (more : list Element) :
  tags_in t (add_children parent more)
  = tags_in t parent + list_sum (map (tags_in t) more).
Proof.
  destruct parent as [t' a x c]. simpl.
  rewrite map_app, list_sum_app. lia.
Qed.

Lemma list_sum_flat_map {A : Type} (f : A -> list Element)
  (n : A -> nat) (t : string) (l : list A) :
  Forall (fun a => list_sum (map (tags_in t) (f a)) = n a) l ->
  list_sum (map (tags_in t) (flat_map f l)) = list_sum (map n l).
Proof.
  induction 1 as [|a l Ha _ IH]; simpl; [reflexivity|].
  now rewrite map_app, list_sum_app, Ha, IH.
Qed.

(** The elements with a tag that only leaves produce are as many as the
    leaves that produce it. *)
Lemma markup_tags (t : string) (p : pyval -> bool) :
  String.eqb "dict" t = false ->
  String.eqb "array" t = false ->
  String.eqb "key" t = false ->
  (forall key v,
      match v with
      | VDict _ | VList _ => True
      | _ =>
          list_sum (map (tags_in t) (markup key v)) = if p v then 1 else 0
      end) ->
  forall (value : pyval) (key : string),
    list_sum (map (tags_in t) (markup key value)) = count_leaves p value.
Proof.
  intros Hd Ha Hk Hleaf.
  induction value as [| b | z | s | items IH | elems IH]
    using pyval_ind_nested; intros key.
  - exact (Hleaf key VNone).
  - exact (Hleaf key (VBool b)).
  - exact (Hleaf key (VInt z)).
  - exact (Hleaf key (VStr s)).
  - change (markup key (VDict items))
      with [Elem "dict" [] None
              (flat_map (fun kv => markup (fst kv) (snd kv)) items)].
    change (count_leaves p (VDict items))
      with (list_sum (map (fun kv => count_leaves p (snd kv)) items)).
    cbn [map list_sum]. rewrite tags_in_Elem, Hd.
    rewrite (list_sum_flat_map _ (fun kv => count_leaves p (snd kv))).
    + simpl. lia.
    + eapply Forall_impl; [|exact IH]. intros kv H. apply H.
  - change (markup key (VList elems))
      with [key_element key;
            Elem "array" [] None (flat_map (markup "dunno") elems)].
    change (count_leaves p (VList elems))
      with (list_sum (map (count_leaves p) elems)).
    unfold key_element. cbn [map list_sum].
    rewrite !tags_in_Elem, Hk, Ha.
    rewrite (list_sum_flat_map _ (count_leaves p)).
    + simpl. lia.
    + eapply Forall_impl; [|exact IH]. intros v H. apply H.
Qed.

(** C9. The test for [bool] comes before the test for [int]: a boolean,
    though an instance of [int], is written by [_bool_element] as a key
    element and a [true] or [false] element; and in the markup of any tree
    the [true], [false] and [integer] elements are as many as the leaves
    that are true, false, and integers that are no booleans. *)
Theorem subtree_bool_before_int :
  forall (parent : Element) (key : string),
    (forall b : bool,
        isinstance (VBool b) Cint = true
        /\ _subtree parent key (VBool b) = _bool_element parent key b
        /\ _subtree parent key (VBool b)
           = add_children parent
               [key_element key;
                Elem (if b then "true" else "false") [] None []])
    /\ (forall value : pyval,
           tags_in "true" (_subtree parent key value)
           = tags_in "true" parent + count_leaves (is_bool_leaf true) value
           /\ tags_in "false" (_subtree parent key value)
              = tags_in "false" parent
                + count_leaves (is_bool_leaf false) value
           /\ tags_in "integer" (_subtree parent key value)
              = tags_in "integer" parent
                + count_leaves is_proper_int_leaf value).
Proof.
  intros parent key. split.
  - intros b. repeat split.
    + now rewrite subtree_markup.
  - intros value. rewrite subtree_markup, !tags_in_add_children.
    repeat split; f_equal; apply markup_tags; try reflexivity;
      intros k v; destruct v as [| [] | | | |]; reflexivity.
Qed.

(** *** Sanitisation *)

Lemma for_each_map_cons {A B : Type} (body : A -> res B) (a : A)
  (rest : list A) :
  for_each_map body (a :: rest)
  = match body a with
    | Ok b =>
        match for_each_map body rest with
        | Ok bs => Ok (b :: bs)
        | Raise e => Raise e
        end
    | Raise e => Raise e
    end.
Proof. reflexivity. Qed.

Lemma for_each_cons {A S : Type} (body : S -> A -> res S) (a : A)
  (rest : list A) (s : S) :
  for_each body (a :: rest) s
  = match body s a with
    | Ok s' => for_each body rest s'
    | Raise e => Raise e
    end.
Proof. reflexivity. Qed.

Lemma sanitise_dict (items : dict) (local domain : string) :
  _sanitise (VDict items) local domain
  = (acc <- for_each (sanitise_item local domain) items items ;;
     Ok (VDict acc))%res.
Proof. reflexivity. Qed.

Lemma distinct_cons (k : string) (l : list string) :
  distinct (k :: l) = true -> ~ In k l /\ distinct l = true.
Proof.
  simpl. intros H. apply andb_true_iff in H. destruct H as [H1 H2].
  split; [|exact H2].
  intros Hin. apply negb_true_iff in H1.
  assert (existsb (String.eqb k) l = true) as E.
  { apply existsb_exists. exists k. split; [exact Hin | apply String.eqb_refl]. }
  congruence.
Qed.

Lemma distinct_NoDup (l : list string) : distinct l = true -> NoDup l.
Proof.
  induction l as [|k l IH]; intros H; [constructor|].
  apply distinct_cons in H. destruct H as [H1 H2].
  constructor; auto.
Qed.

(** Writing to a key that is there changes the value in its place. *)
Lemma setitem_middle {V : Type} (before after : list (string * V))
  (k : string) (v v' : V) :
  ~ In k (keys before) ->
  setitem (before ++ (k, v) :: after)%list k v'
  = (before ++ (k, v') :: after)%list.
Proof.
  induction before as [|[k0 v0] before IH]; intros H; simpl.
  - now rewrite String.eqb_refl.
  - destruct (String.eqb_spec k0 k) as [E|_].
    + exfalso. apply H. now left.
    + f_equal. apply IH. intros Hin. apply H. now right.
Qed.

Section sanitise.
Variables local domain : string.

Lemma sanitise_loop (rest : dict) :
  Forall (fun kv => sanitise_ok local domain (snd kv)) rest ->
  forallb (fun kv => well_formed (snd kv)) rest = true ->
  forall before : dict,
    NoDup (keys before ++ keys rest) ->
    for_each (sanitise_item local domain) rest (before ++ rest)%list
    = match flat_map (fun kv => null_keys (fst kv) (snd kv)) rest with
      | [] =>
          Ok (before
              ++ map (fun kv => (fst kv, expand_tree local domain (snd kv)))
                   rest)%list
      | k :: _ => Raise (missing_value k)
      end.
Proof.
  induction 1 as [|[k v] rest Hv _ IH]; intros Hwf before Hnd.
  - reflexivity.
  - simpl in Hwf. apply andb_true_iff in Hwf. destruct Hwf as [Hwv Hwr].
    assert (Hk : ~ In k (keys before)).
    { intros Hin. apply NoDup_remove_2 in Hnd. apply Hnd.
      apply in_or_app. now left. }
    assert (Hnd' : NoDup (keys (before ++ [(k, expand_tree local domain v)])
                          ++ keys rest)).
    { unfold keys in *. rewrite map_app. simpl. now rewrite <- app_assoc. }
    assert (Hnext :
      for_each (sanitise_item local domain) rest
        (before ++ (k, expand_tree local domain v) :: rest)%list
      = match flat_map (fun kv => null_keys (fst kv) (snd kv)) rest with
        | [] =>
            Ok (before
                ++ (k, expand_tree local domain v)
                   :: map (fun kv =>
                             (fst kv, expand_tree local domain (snd kv)))
                        rest)%list
        | k' :: _ => Raise (missing_value k')
        end).
    { specialize (IH Hwr _ Hnd').
      rewrite <- !app_assoc in IH. exact IH. }
    cbn [for_each flat_map map fst snd].
    unfold sanitise_item at 1. cbn [fst snd].
    cbn [snd] in Hv, Hwv. specialize (Hv Hwv k).
    destruct v as [| b | z | s | d | elems]; cbn [is_None isinstance type_of
      issubclass pyclass_eqb orb null_keys app].
    + reflexivity.
    + exact Hnext.
    + exact Hnext.
    + rewrite setitem_middle by exact Hk. exact Hnext.
    + rewrite Hv. unfold sanitised.
      change (null_keys k (VDict d))
        with (flat_map (fun kv => null_keys (fst kv) (snd kv)) d).
      destruct (flat_map (fun kv => null_keys (fst kv) (snd kv)) d)
        as [|k' ks]; cbn [res_bind app].
      * rewrite setitem_middle by exact Hk. exact Hnext.
      * reflexivity.
    + rewrite Hv.
      change (null_keys k (VList elems))
        with (flat_map (null_keys k) elems).
      destruct (flat_map (null_keys k) elems) as [|k' ks]; cbn [res_bind app].
      * rewrite setitem_middle by exact Hk. exact Hnext.
      * reflexivity.
Qed.

Lemma sanitise_ok_all (value : pyval) : sanitise_ok local domain value.
Proof.
  induction value as [| b | z | s | items IH | elems IH]
    using pyval_ind_nested; unfold sanitise_ok; intros Hwf key; try exact I.
  - (* a mapping *)
    simpl in Hwf. apply andb_true_iff in Hwf. destruct Hwf as [Hd Hw].
    rewrite sanitise_dict.
    change items with ([] ++ items)%list at 2.
    rewrite (sanitise_loop items IH Hw []).
    + unfold sanitised.
      change (null_keys key (VDict items))
        with (flat_map (fun kv => null_keys (fst kv) (snd kv)) items).
      destruct (flat_map _ items); reflexivity.
    + simpl. now apply distinct_NoDup.
  - (* a list *)
    change (null_keys key (VList elems)) with (flat_map (null_keys key) elems).
    simpl in Hwf.
    induction IH as [|e elems He _ IHe]; [reflexivity|].
    simpl in Hwf. apply andb_true_iff in Hwf. destruct Hwf as [Hwe Hwr].
    apply andb_true_iff in Hwe. destruct Hwe as [Hdict Hwe].
    specialize (IHe Hwr). specialize (He Hwe key).
    destruct e as [| | | | d |]; try discriminate.
    rewrite for_each_map_cons. cbn [flat_map].
    rewrite He. unfold sanitised.
    destruct (null_keys key (VDict d)) as [|k' ks]; cbn [app].
    + rewrite IHe. destruct (flat_map (null_keys key) elems); reflexivity.
    + reflexivity.
Qed.

End sanitise.

Lemma flat_map_map_leaves {A : Type} (f g : A -> list string)
  (h : string -> string) (l : list A) :
  Forall (fun a => f a = map h (g a)) l ->
  flat_map f l = map h (flat_map g l).
Proof.
  induction 1 as [|a l Ha _ IH]; simpl; [reflexivity|].
  now rewrite Ha, IH, map_app.
Qed.

(** The strings of the expanded tree are the expansions of the strings of
    the tree. *)
Lemma string_leaves_expand (local domain : string) (value : pyval) :
  string_leaves (expand_tree local domain value)
  = map (fun s => expand_placeholders s local domain) (string_leaves value).
Proof.
  induction value as [| b | z | s | items IH | elems IH]
    using pyval_ind_nested; try reflexivity.
  - cbn [expand_tree string_leaves]. rewrite flat_map_concat_map, map_map.
    rewrite <- flat_map_concat_map.
    apply flat_map_map_leaves.
    eapply Forall_impl; [|exact IH]. intros kv H. exact H.
  - cbn [expand_tree string_leaves]. rewrite flat_map_concat_map, map_map.
    rewrite <- flat_map_concat_map.
    apply flat_map_map_leaves. exact IH.
Qed.


(** *** The per-server fill *)

Lemma for_each_app {A S : Type} (body : S -> A -> res S) (a b : list A)
  (s : S) :
  for_each body (a ++ b)%list s
  = (s' <- for_each body a s ;; for_each body b s')%res.
Proof.
  revert s. induction a as [|x a IH]; intros s; simpl; [reflexivity|].
  destruct (body s x); [apply IH | reflexivity].
Qed.

Lemma known_type_lookup (server : Server.t) :
  known_type server <-> lookup TYPE_DIRECTION_MAP (Server.type server) <> None.
Proof.
  unfold known_type, TYPE_DIRECTION_MAP. cbn [lookup].
  destruct (String.eqb_spec "imap" (Server.type server)) as [E1|N1];
    [split; [discriminate | now left]|].
  destruct (String.eqb_spec "smtp" (Server.type server)) as [E2|N2];
    [split; [discriminate | now right]|].
  split; [intros [H|H]; congruence | congruence].
Qed.

Lemma known_authentication_lookup (server : Server.t) :
  known_authentication server
  <-> lookup AUTH_MAP (Server.authentication server) <> None.
Proof.
  unfold known_authentication, AUTH_MAP. cbn [lookup].
  destruct (String.eqb_spec "none" (Server.authentication server)) as [E1|N1];
    [split; [discriminate | now left]|].
  destruct (String.eqb_spec "NTLM" (Server.authentication server)) as [E2|N2];
    [split; [discriminate | now right; left]|].
  destruct (String.eqb_spec "plain" (Server.authentication server))
    as [E3|N3]; [split; [discriminate | now right; right]|].
  split; [intros [H|[H|H]]; congruence | congruence].
Qed.

(** The three outcomes of the fill for one server, whatever the payload. *)
Lemma client_config_server_unknown_type (inner : ref) (outer : dict)
  (server : Server.t) :
  ~ known_type server ->
  client_config_server inner outer server
  = Raise (InvalidServerType
             ("Invalid server type " ++ quoted (Server.type server))).
Proof.
  intros H. unfold client_config_server.
  destruct (lookup TYPE_DIRECTION_MAP (Server.type server)) eqn:E;
    [|reflexivity].
  exfalso. apply H. apply known_type_lookup. congruence.
Qed.

Lemma client_config_server_unknown_authentication (inner : ref)
  (outer : dict) (server : Server.t) :
  known_type server ->
  ~ known_authentication server ->
  client_config_server inner outer server
  = Raise (InvalidAuthenticationType
             ("Invalid authentication type "
              ++ quoted (Server.authentication server))).
Proof.
  intros Ht Ha. unfold client_config_server.
  destruct (lookup TYPE_DIRECTION_MAP (Server.type server)) eqn:E.
  - unfold _map_authentication.
    destruct (lookup AUTH_MAP (Server.authentication server)) eqn:E';
      [|reflexivity].
    exfalso. apply Ha. apply known_authentication_lookup. congruence.
  - exfalso. apply known_type_lookup in Ht. congruence.
Qed.

Lemma client_config_server_valid (inner : ref) (outer : dict)
  (server : Server.t) :
  valid_server server <->
  exists outer', client_config_server inner outer server = Ok outer'.
Proof.
  split.
  - intros [Ht Ha]. unfold client_config_server.
    apply known_type_lookup in Ht. apply known_authentication_lookup in Ha.
    destruct (lookup TYPE_DIRECTION_MAP (Server.type server)); [|congruence].
    unfold _map_authentication.
    destruct (lookup AUTH_MAP (Server.authentication server)); [|congruence].
    simpl. eauto.
  - intros [outer' H]. unfold client_config_server in H. split.
    + apply known_type_lookup.
      destruct (lookup TYPE_DIRECTION_MAP (Server.type server));
        [discriminate | discriminate].
    + apply known_authentication_lookup.
      destruct (lookup TYPE_DIRECTION_MAP (Server.type server));
        [|discriminate].
      unfold _map_authentication in H.
      destruct (lookup AUTH_MAP (Server.authentication server));
        [discriminate | discriminate].
Qed.

Lemma fill_valid_servers (inner : ref) (servers : list Server.t) :
  Forall valid_server servers ->
  forall outer, exists outer',
    for_each (client_config_server inner) servers outer = Ok outer'.
Proof.
  induction 1 as [|s servers Hs _ IH]; intros outer; simpl; [eauto|].
  apply (client_config_server_valid inner outer) in Hs.
  destruct Hs as [o' ->]. apply IH.
Qed.

Lemma fill_ok_valid (inner : ref) (servers : list Server.t) :
  forall outer outer',
    for_each (client_config_server inner) servers outer = Ok outer' ->
    Forall valid_server servers.
Proof.
  induction servers as [|s servers IH]; intros outer outer' H; [constructor|].
  rewrite for_each_cons in H.
  destruct (client_config_server inner outer s) as [o'|] eqn:E;
    [|discriminate].
  constructor; [|eapply IH; eauto].
  apply (client_config_server_valid inner outer). eauto.
Qed.

(** [client_config] once the directory step has let the request through. *)
Lemma client_config_past_lookup
  (local_part domain_part realname password : string)
  (domain : Domain.t) (provider : Provider.t)
  (lookup_result : option LookupResult.t) :
  Domain_query_first domain_part = Some domain ->
  Domain.provider domain = Some provider ->
  Domain.servers domain <> [] ->
  lookup_passes local_part domain_part domain lookup_result ->
  result (client_config local_part domain_part realname password)
  = (plist <- client_config_plist local_part domain_part realname domain
                lookup_result ;;
     Ok (PyBytes (tostring plist "utf-8")))%res.
Proof.
  intros Hd Hp Hs Hl.
  rewrite (client_config_resolved _ _ _ _ _ _ Hd Hp Hs).
  unfold lookup_passes in Hl.
  destruct (Domain.ldapserver domain) as [ldapserver|].
  - destruct Hl as (r & -> & -> & He & Hn). simpl.
    destruct (LookupResult.status r); congruence.
  - now subst.
Qed.

(** C3, as the code has it.  The fill takes the servers in order and ends
    at the first one it does not accept, testing the type before the
    authentication kind: a type outside imap and smtp raises
    [InvalidServerType]; a known type with an authentication kind outside
    none, NTLM and plain raises [InvalidAuthenticationType].  The
    recognised kinds map to [EmailAuthNone], [EmailAuthNTLM] and
    [EmailAuthPassword]. *)
Theorem client_config_first_invalid_server :
  forall (local_part domain_part realname password : string)
         (domain : Domain.t) (provider : Provider.t)
         (lookup_result : option LookupResult.t)
         (before after : list Server.t) (server : Server.t),
    Domain_query_first domain_part = Some domain ->
    Domain.provider domain = Some provider ->
    lookup_passes local_part domain_part domain lookup_result ->
    Domain.servers domain = (before ++ server :: after)%list ->
    Forall valid_server before ->
    (~ known_type server ->
     result (client_config local_part domain_part realname password)
     = Raise (InvalidServerType
                ("Invalid server type " ++ quoted (Server.type server))))
    /\ (known_type server ->
        ~ known_authentication server ->
        result (client_config local_part domain_part realname password)
        = Raise (InvalidAuthenticationType
                   ("Invalid authentication type "
                    ++ quoted (Server.authentication server))))
    /\ (forall s : Server.t,
           (Server.authentication s = "none" ->
            _map_authentication s = Ok "EmailAuthNone")
           /\ (Server.authentication s = "NTLM" ->
               _map_authentication s = Ok "EmailAuthNTLM")
           /\ (Server.authentication s = "plain" ->
               _map_authentication s = Ok "EmailAuthPassword")).
Proof.
  intros local_part domain_part realname password domain provider
         lookup_result before after server Hd Hp Hl Hs Hb.
  assert (Hne : Domain.servers domain <> []).
  { rewrite Hs. now destruct before. }
  rewrite (client_config_past_lookup _ _ _ _ _ _ _ Hd Hp Hne Hl).
  unfold client_config_plist.
  destruct (_payload local_part domain_part) as [inner outer].
  rewrite Hs, for_each_app.
  destruct (fill_valid_servers inner before Hb outer) as [outer' ->].
  cbn [res_bind]. rewrite for_each_cons.
  repeat split.
  - intros Ht. now rewrite client_config_server_unknown_type.
  - intros Ht Ha. now rewrite client_config_server_unknown_authentication.
  - intros E. unfold _map_authentication. now rewrite E.
  - intros E. unfold _map_authentication. now rewrite E.
  - intros E. unfold _map_authentication. now rewrite E.
Qed.

(** *** The payload after the fill *)

Lemma payload_filled (local domain : string) :
  _payload local domain = (inner_ref, filled local domain None None).
Proof. reflexivity. Qed.

Lemma fill_step (local domain : string) (incoming outgoing : option Server.t)
  (server : Server.t) :
  valid_server server ->
  client_config_server inner_ref (filled local domain incoming outgoing)
    server
  = Ok (filled local domain
          (if String.eqb (Server.type server) "imap"
           then Some server else incoming)
          (if String.eqb (Server.type server) "smtp"
           then Some server else outgoing)).
Proof.
  intros [Ht Ha]. unfold client_config_server, _map_authentication.
  destruct server as [ty nm pt un au st].
  unfold known_type, known_authentication in *. simpl in Ht, Ha.
  destruct Ht as [-> | ->]; destruct Ha as [-> | [-> | ->]];
    destruct incoming, outgoing; vm_compute; reflexivity.
Qed.

Lemma last_of_type_cons (t : string) (s : Server.t)
  (servers : list Server.t) (init : option Server.t) :
  last_of_type t (s :: servers) init
  = last_of_type t servers
      (if String.eqb (Server.type s) t then Some s else init).
Proof. reflexivity. Qed.

Lemma last_of_type_some (t : string) (servers : list Server.t)
  (s0 : Server.t) :
  exists s, last_of_type t servers (Some s0) = Some s.
Proof.
  revert s0. induction servers as [|s servers IH]; intros s0.
  - now exists s0.
  - rewrite last_of_type_cons.
    destruct (String.eqb (Server.type s) t); apply IH.
Qed.

Lemma last_of_type_none (t : string) (servers : list Server.t) :
  last_of_type t servers None = None
  <-> (forall s, In s servers -> Server.type s <> t).
Proof.
  induction servers as [|s servers IH].
  - split; [intros _ s [] | reflexivity].
  - rewrite last_of_type_cons.
    destruct (String.eqb_spec (Server.type s) t) as [E|N].
    + split.
      * intros H. destruct (last_of_type_some t servers s) as [s' Hs'].
        congruence.
      * intros H. exfalso. apply (H s); [now left | exact E].
    + rewrite IH. split.
      * intros H s' [<-|Hin]; [exact N | now apply H].
      * intros H s' Hin. apply H. now right.
Qed.

Lemma fill_all (local domain : string) (servers : list Server.t) :
  Forall valid_server servers ->
  forall incoming outgoing : option Server.t,
    for_each (client_config_server inner_ref) servers
      (filled local domain incoming outgoing)
    = Ok (filled local domain
            (last_of_type "imap" servers incoming)
            (last_of_type "smtp" servers outgoing)).
Proof.
  induction 1 as [|s servers Hs _ IH]; intros incoming outgoing.
  - reflexivity.
  - rewrite for_each_cons, (fill_step _ _ _ _ _ Hs), !last_of_type_cons.
    apply IH.
Qed.

(** Sanitising the filled payload: the first null leaf is the host name of
    a direction that no server has filled. *)
Lemma sanitise_filled_without_incoming (local domain name : string)
  (outgoing : option Server.t) :
  _sanitise
    (VDict (ref_setitem (filled local domain None outgoing) inner_ref
              "EmailAccountName" (VStr name)))
    local domain
  = Raise (missing_value "IncomingMailServerHostName").
Proof. destruct outgoing; vm_compute; reflexivity. Qed.

Lemma sanitise_filled_without_outgoing (local domain name : string)
  (incoming : Server.t) :
  _sanitise
    (VDict (ref_setitem (filled local domain (Some incoming) None)
              inner_ref
              "EmailAccountName" (VStr name)))
    local domain
  = Raise (missing_value "OutgoingMailServerHostName").
Proof. vm_compute; reflexivity. Qed.

Lemma sanitise_filled_account_name (local domain name : string)
  (incoming outgoing : Server.t) :
  exists tree,
    _sanitise
      (VDict (ref_setitem
                (filled local domain (Some incoming) (Some outgoing))
                inner_ref "EmailAccountName" (VStr name)))
      local domain
    = Ok tree
    /\ account_field
         (_subtree (new "plist" [("version", "1.0")]) EmptyString tree)
         "EmailAccountName"
       = Some (string_element (expand_placeholders name local domain)).
Proof.
  eexists. split.
  - vm_compute. reflexivity.
  - vm_compute. reflexivity.
Qed.

Lemma last_of_type_in (t : string) (servers : list Server.t) :
  forall (init : option Server.t) (s : Server.t),
    last_of_type t servers init = Some s ->
    init = Some s \/ (In s servers /\ Server.type s = t).
Proof.
  induction servers as [|s0 servers IH]; intros init s H.
  - now left.
  - rewrite last_of_type_cons in H. apply IH in H.
    destruct H as [H|[H1 H2]].
    + destruct (String.eqb_spec (Server.type s0) t) as [E|_].
      * injection H as <-. right. split; [now left | exact E].
      * now left.
    + right. split; [now right | exact H2].
Qed.

(** The plist element of a request that gets through the fill and the
    sanitisation: the servers are valid and cover both directions, and the
    element is the markup of the sanitised store that the last imap and the
    last smtp server have filled. *)
Lemma client_config_plist_filled
  (local_part domain_part realname : string) (domain : Domain.t)
  (lookup_result : option LookupResult.t) (plist : Element) :
  client_config_plist local_part domain_part realname domain lookup_result
  = Ok plist ->
  Forall valid_server (Domain.servers domain)
  /\ exists incoming outgoing tree,
       last_of_type "imap" (Domain.servers domain) None = Some incoming
       /\ last_of_type "smtp" (Domain.servers domain) None = Some outgoing
       /\ _sanitise
            (VDict (ref_setitem
                      (filled local_part domain_part
                         (Some incoming) (Some outgoing))
                      inner_ref "EmailAccountName"
                      (VStr (client_config_realname lookup_result realname))))
            local_part domain_part
          = Ok tree
       /\ plist
          = _subtree (new "plist" [("version", "1.0")]) EmptyString tree.
Proof.
  unfold client_config_plist. rewrite payload_filled. intros H.
  destruct (for_each (client_config_server inner_ref) (Domain.servers domain)
              (filled local_part domain_part None None)) as [outer|] eqn:Ef;
    [|discriminate].
  pose proof (fill_ok_valid _ _ _ _ Ef) as Hv.
  rewrite (fill_all _ _ _ Hv) in Ef. injection Ef as <-.
  cbn [res_bind] in H. split; [exact Hv|].
  destruct (last_of_type "imap" (Domain.servers domain) None)
    as [incoming|] eqn:Ei.
  - destruct (last_of_type "smtp" (Domain.servers domain) None)
      as [outgoing|] eqn:Eo.
    + exists incoming, outgoing.
      destruct (_sanitise _ local_part domain_part) as [tree|] eqn:Es;
        [|discriminate].
      exists tree. cbn [res_bind] in H. injection H as <-.
      repeat split.
    + rewrite sanitise_filled_without_outgoing in H. discriminate.
  - rewrite sanitise_filled_without_incoming in H. discriminate.
Qed.

Lemma client_config_plist_ok
  (local_part domain_part realname : string) (domain : Domain.t)
  (lookup_result : option LookupResult.t) (plist : Element) :
  client_config_plist local_part domain_part realname domain lookup_result
  = Ok plist ->
  Forall valid_server (Domain.servers domain)
  /\ (exists s, In s (Domain.servers domain) /\ Server.type s = "imap")
  /\ (exists s, In s (Domain.servers domain) /\ Server.type s = "smtp")
  /\ account_field plist "EmailAccountName"
     = Some (string_element
               (expand_placeholders
                  (client_config_realname lookup_result realname)
                  local_part domain_part)).
Proof.
  intros H. apply client_config_plist_filled in H.
  destruct H as (Hv & incoming & outgoing & tree & Ei & Eo & Hs & ->).
  destruct (sanitise_filled_account_name local_part domain_part
              (client_config_realname lookup_result realname)
              incoming outgoing) as (tree' & Hs' & Ha).
  pose proof (eq_trans (eq_sym Hs) Hs') as E. injection E as <-.
  apply last_of_type_in in Ei, Eo.
  destruct Ei as [Ei|Ei]; [discriminate Ei|].
  destruct Eo as [Eo|Eo]; [discriminate Eo|].
  split; [exact Hv|].
  split; [exists incoming; exact Ei|].
  split; [exists outgoing; exact Eo | exact Ha].
Qed.

(** A request that returns bytes has resolved its domain, passed the
    directory step, and serialised the plist element. *)
Lemma client_config_bytes_inv
  (local_part domain_part realname password : string)
  (bytes : list Byte.byte) :
  result (client_config local_part domain_part realname password)
  = Ok (PyBytes bytes) ->
  exists domain provider lookup_result plist,
    Domain_query_first domain_part = Some domain
    /\ Domain.provider domain = Some provider
    /\ Domain.servers domain <> []
    /\ lookup_passes local_part domain_part domain lookup_result
    /\ events (client_config local_part domain_part realname password)
       = match Domain.ldapserver domain, lookup_result with
         | Some ldapserver, Some r =>
             [DirectoryLookup (local_part ++ "@" ++ domain_part) ldapserver r]
         | _, _ => []
         end
    /\ client_config_plist local_part domain_part realname domain
         lookup_result = Ok plist
    /\ bytes = tostring plist "utf-8".
Proof.
  intros H.
  destruct (Domain_query_first domain_part) as [domain|] eqn:Hd;
    [|unfold client_config in H; rewrite Hd in H; discriminate].
  destruct (Domain.provider domain) as [provider|] eqn:Hp;
    [|unfold client_config in H; rewrite Hd, Hp in H; discriminate].
  destruct (Domain.servers domain) as [|s0 ss] eqn:Es;
    [unfold client_config in H; rewrite Hd, Hp, Es in H; discriminate|].
  assert (Hne : Domain.servers domain <> []) by (rewrite Es; discriminate).
  rewrite (client_config_resolved _ _ _ _ _ _ Hd Hp Hne) in *.
  unfold lookup_passes.
  destruct (Domain.ldapserver domain) as [ldapserver|] eqn:El.
  - destruct (directory_answer _ _) as [r|] eqn:Ea; [|discriminate].
    cbn [result events] in *.
    destruct (LookupResult.status r) eqn:Est; try discriminate.
    destruct (client_config_plist local_part domain_part realname domain
                (Some r)) as [plist|] eqn:Ep; [|discriminate].
    injection H as <-.
    exists domain, provider, (Some r), plist.
    split; [reflexivity|]. split; [exact Hp|]. split; [exact Hne|].
    rewrite El.
    split.
    { exists r. rewrite Est.
      split; [reflexivity|]. split; [exact Ea|]. split; discriminate. }
    split; [reflexivity|]. split; [exact Ep | reflexivity].
  - cbn [result events] in *.
    destruct (client_config_plist local_part domain_part realname domain
                None) as [plist|] eqn:Ep; [|discriminate].
    injection H as <-.
    exists domain, provider, None, plist.
    split; [reflexivity|]. split; [exact Hp|]. split; [exact Hne|].
    rewrite El.
    split; [reflexivity|].
    split; [reflexivity|]. split; [exact Ep | reflexivity].
Qed.

(** *** The account name and the two directions *)

(** C5, as the code has it.  In a request that returns a serialised
    document, the account name of the document is the placeholder
    expansion of the name chosen: of the common name, when the lookup the
    request made returned a non-empty one, and of the caller's realname
    otherwise (a lookup without common name, or a domain without directory
    server). *)
Theorem client_config_account_name :
  forall (local_part domain_part realname password : string)
         (bytes : list Byte.byte),
    result (client_config local_part domain_part realname password)
    = Ok (PyBytes bytes) ->
    exists (domain : Domain.t) (lookup_result : option LookupResult.t)
           (plist : Element),
      Domain_query_first domain_part = Some domain
      /\ client_config_plist local_part domain_part realname domain
           lookup_result = Ok plist
      /\ bytes = tostring plist "utf-8"
      /\ (forall ldapserver r cn,
             In (DirectoryLookup (local_part ++ "@" ++ domain_part)
                   ldapserver r)
                (events (client_config local_part domain_part realname
                           password)) ->
             LookupResult.cn r = Some cn ->
             cn <> EmptyString ->
             account_field plist "EmailAccountName"
             = Some (string_element
                       (expand_placeholders cn local_part domain_part)))
      /\ (forall ldapserver r,
             In (DirectoryLookup (local_part ++ "@" ++ domain_part)
                   ldapserver r)
                (events (client_config local_part domain_part realname
                           password)) ->
             LookupResult.cn r = None
             \/ LookupResult.cn r = Some EmptyString ->
             account_field plist "EmailAccountName"
             = Some (string_element
                       (expand_placeholders realname local_part
                          domain_part)))
      /\ (Domain.ldapserver domain = None ->
          account_field plist "EmailAccountName"
          = Some (string_element
                    (expand_placeholders realname local_part domain_part))).
Proof.
  intros local_part domain_part realname password bytes H.
  destruct (client_config_bytes_inv _ _ _ _ _ H)
    as (domain & provider & lookup_result & plist
        & Hd & Hp & Hs & Hl & Hev & Hpl & Hb).
  exists domain, lookup_result, plist.
  destruct (client_config_plist_ok _ _ _ _ _ _ Hpl) as (_ & _ & _ & Ha).
  rewrite Hev. unfold lookup_passes in Hl.
  split; [exact Hd|]. split; [exact Hpl|]. split; [exact Hb|].
  destruct (Domain.ldapserver domain) as [ldapserver|].
  - destruct Hl as (r0 & -> & _). cbn [client_config_realname] in Ha.
    split; [|split].
    + intros l r cn [E|[]] Hcn Hne. injection E as _ <-.
      rewrite Hcn in Ha.
      destruct (String.eqb_spec cn EmptyString); [contradiction | exact Ha].
    + intros l r [E|[]] Hcn. injection E as _ <-.
      destruct Hcn as [Hcn|Hcn]; rewrite Hcn in Ha; exact Ha.
    + discriminate.
  - subst lookup_result. cbn [client_config_realname] in Ha.
    split; [|split].
    + intros l r cn [].
    + intros l r [].
    + intros _. exact Ha.
Qed.

(** C10, as the code has it.  A serialised document is only returned when
    the servers of the domain cover both directions.  For a domain with a
    provider whose servers are all valid, in a request that gets past the
    directory step: without an imap server the sanitisation raises the
    error for the key [IncomingMailServerHostName]; with an imap server
    and without an smtp server, for [OutgoingMailServerHostName]. *)
Theorem client_config_needs_both_directions :
  forall local_part domain_part realname password : string,
    (forall bytes : list Byte.byte,
        result (client_config local_part domain_part realname password)
        = Ok (PyBytes bytes) ->
        exists domain,
          Domain_query_first domain_part = Some domain
          /\ (exists s, In s (Domain.servers domain)
                        /\ Server.type s = "imap")
          /\ (exists s, In s (Domain.servers domain)
                        /\ Server.type s = "smtp"))
    /\
    (forall (domain : Domain.t) (provider : Provider.t)
            (lookup_result : option LookupResult.t),
        Domain_query_first domain_part = Some domain ->
        Domain.provider domain = Some provider ->
        Domain.servers domain <> [] ->
        Forall valid_server (Domain.servers domain) ->
        lookup_passes local_part domain_part domain lookup_result ->
        ((forall s, In s (Domain.servers domain) ->
                    Server.type s <> "imap") ->
         result (client_config local_part domain_part realname password)
         = Raise (missing_value "IncomingMailServerHostName"))
        /\ ((exists s, In s (Domain.servers domain)
                       /\ Server.type s = "imap") ->
            (forall s, In s (Domain.servers domain) ->
                       Server.type s <> "smtp") ->
            result (client_config local_part domain_part realname password)
            = Raise (missing_value "OutgoingMailServerHostName"))).
Proof.
  intros local_part domain_part realname password. split.
  - intros bytes H.
    destruct (client_config_bytes_inv _ _ _ _ _ H)
      as (domain & provider & lookup_result & plist
          & Hd & _ & _ & _ & _ & Hpl & _).
    destruct (client_config_plist_ok _ _ _ _ _ _ Hpl) as (_ & Hi & Ho & _).
    exists domain. auto.
  - intros domain provider lookup_result Hd Hp Hs Hv Hl.
    rewrite (client_config_past_lookup _ _ _ _ _ _ _ Hd Hp Hs Hl).
    unfold client_config_plist.
    rewrite payload_filled, (fill_all _ _ _ Hv). cbn [res_bind].
    split.
    + intros Hno. apply last_of_type_none in Hno. rewrite Hno.
      now rewrite sanitise_filled_without_incoming.
    + intros [s [Hin Ht]] Hno.
      apply last_of_type_none in Hno. rewrite Hno.
      destruct (last_of_type "imap" (Domain.servers domain) None)
        as [incoming|] eqn:Ei.
      * now rewrite sanitise_filled_without_outgoing.
      * exfalso. apply (proj1 (last_of_type_none _ _) Ei s Hin Ht).
Qed.

(** *** Further properties of the generator *)

Lemma sanitise_filled_server_fields (local domain name : string)
  (incoming outgoing : Server.t) :
  exists tree,
    _sanitise
      (VDict (ref_setitem
                (filled local domain (Some incoming) (Some outgoing))
                inner_ref "EmailAccountName" (VStr name)))
      local domain
    = Ok tree
    /\ let plist :=
         _subtree (new "plist" [("version", "1.0")]) EmptyString tree in
       account_field plist "IncomingMailServerHostName"
       = Some (string_element
                 (expand_placeholders (Server.name incoming) local domain))
       /\ account_field plist "IncomingMailServerPortNumber"
          = Some (Elem "integer" [] (Some (str (Server.port incoming))) [])
       /\ account_field plist "IncomingMailServerUsername"
          = Some (string_element
                    (expand_placeholders (Server.user_name incoming)
                       local domain))
       /\ account_field plist "IncomingMailServerUseSSL"
          = Some (Elem (if _map_socket_type incoming then "true" else "false")
                    [] None [])
       /\ account_field plist "OutgoingMailServerHostName"
          = Some (string_element
                    (expand_placeholders (Server.name outgoing) local domain))
       /\ account_field plist "OutgoingMailServerPortNumber"
          = Some (Elem "integer" [] (Some (str (Server.port outgoing))) [])
       /\ account_field plist "OutgoingMailServerUsername"
          = Some (string_element
                    (expand_placeholders (Server.user_name outgoing)
                       local domain))
       /\ account_field plist "OutgoingMailServerUseSSL"
          = Some (Elem (if _map_socket_type outgoing then "true" else "false")
                    [] None []).
Proof.
  destruct incoming as [ty nm pt un au st].
  destruct outgoing as [ty' nm' pt' un' au' st'].
  unfold filled, fill_direction, _map_socket_type.
  cbn [Server.socket_type].
  destruct (String.eqb "SSL" st || String.eqb "STARTTLS" st);
    destruct (String.eqb "SSL" st' || String.eqb "STARTTLS" st');
    (eexists; split; [vm_compute; reflexivity|]);
    cbv zeta; repeat split; vm_compute; reflexivity.
Qed.

(** The fields of a direction in the document are those of the last server
    of that direction, in the order of the collection: host name and user
    name expanded, the port as a decimal integer, the SSL flag as the
    socket type maps. *)
Theorem client_config_last_server_fields :
  forall (local_part domain_part realname : string) (domain : Domain.t)
         (lookup_result : option LookupResult.t) (plist : Element),
    client_config_plist local_part domain_part realname domain lookup_result
    = Ok plist ->
    exists incoming outgoing : Server.t,
      last_of_type "imap" (Domain.servers domain) None = Some incoming
      /\ last_of_type "smtp" (Domain.servers domain) None = Some outgoing
      /\ account_field plist "IncomingMailServerHostName"
         = Some (string_element
                   (expand_placeholders (Server.name incoming)
                      local_part domain_part))
      /\ account_field plist "IncomingMailServerPortNumber"
         = Some (Elem "integer" [] (Some (str (Server.port incoming))) [])
      /\ account_field plist "IncomingMailServerUsername"
         = Some (string_element
                   (expand_placeholders (Server.user_name incoming)
                      local_part domain_part))
      /\ account_field plist "IncomingMailServerUseSSL"
         = Some (Elem (if _map_socket_type incoming then "true" else "false")
                   [] None [])
      /\ account_field plist "OutgoingMailServerHostName"
         = Some (string_element
                   (expand_placeholders (Server.name outgoing)
                      local_part domain_part))
      /\ account_field plist "OutgoingMailServerPortNumber"
         = Some (Elem "integer" [] (Some (str (Server.port outgoing))) [])
      /\ account_field plist "OutgoingMailServerUsername"
         = Some (string_element
                   (expand_placeholders (Server.user_name outgoing)
                      local_part domain_part))
      /\ account_field plist "OutgoingMailServerUseSSL"
         = Some (Elem (if _map_socket_type outgoing then "true" else "false")
                   [] None []).
Proof.
  intros local_part domain_part realname domain lookup_result plist H.
  apply client_config_plist_filled in H.
  destruct H as (_ & incoming & outgoing & tree & Ei & Eo & Hs & ->).
  exists incoming, outgoing.
  destruct (sanitise_filled_server_fields local_part domain_part
              (client_config_realname lookup_result realname)
              incoming outgoing) as (tree' & Hs' & Hf).
  pose proof (eq_trans (eq_sym Hs) Hs') as E. injection E as <-.
  split; [exact Ei|]. split; [exact Eo|]. exact Hf.
Qed.

(** A request asks the directory at most once, and only for a domain that
    is found, has a provider, has servers and has a directory server: the
    one lookup is that of [local@domain] on that server, with the answer
    of the directory. *)
Theorem client_config_lookups :
  forall local_part domain_part realname password : string,
    length (events (client_config local_part domain_part realname password))
    <= 1
    /\ (forall e,
           In e (events (client_config local_part domain_part realname
                           password)) ->
           exists domain provider ldapserver r,
             Domain_query_first domain_part = Some domain
             /\ Domain.provider domain = Some provider
             /\ Domain.servers domain <> []
             /\ Domain.ldapserver domain = Some ldapserver
             /\ directory_answer (local_part ++ "@" ++ domain_part)
                  ldapserver = Some r
             /\ e = DirectoryLookup (local_part ++ "@" ++ domain_part)
                      ldapserver r).
Proof.
  intros local_part domain_part realname password.
  destruct (Domain_query_first domain_part) as [domain|] eqn:Hd;
    [|unfold client_config; rewrite Hd; simpl; split;
      [lia | intros e []]].
  destruct (Domain.provider domain) as [provider|] eqn:Hp;
    [|unfold client_config; rewrite Hd, Hp; simpl; split;
      [lia | intros e []]].
  destruct (Domain.servers domain) as [|s0 ss] eqn:Es;
    [unfold client_config; rewrite Hd, Hp, Es; simpl; split;
     [lia | intros e []]|].
  assert (Hne : Domain.servers domain <> []) by (rewrite Es; discriminate).
  rewrite (client_config_resolved _ _ _ _ _ _ Hd Hp Hne).
  destruct (Domain.ldapserver domain) as [ldapserver|] eqn:El;
    [|simpl; split; [lia | intros e []]].
  destruct (directory_answer _ _) as [r|] eqn:Ea;
    [|simpl; split; [lia | intros e []]].
  simpl. split; [lia|].
  intros e [<-|[]]. exists domain, provider, ldapserver, r.
  split; [reflexivity|]. split; [exact Hp|]. split; [exact Hne|].
  split; [exact El|]. split; [exact Ea | reflexivity].
Qed.

(* ================================================================== *)
(** ** Further properties *)

(** *** Serialisation: what it leaves alone, and reading it back *)

(** [_subtree] only appends: tag, attributes, text and the children the
    parent has stay as they are; a mapping adds one element, any other
    value two. *)
Theorem subtree_only_appends :
  forall (parent : Element) (key : string) (value : pyval),
    tag (_subtree parent key value) = tag parent
    /\ attrib (_subtree parent key value) = attrib parent
    /\ text (_subtree parent key value) = text parent
    /\ exists more : list Element,
         children (_subtree parent key value)
         = (children parent ++ more)%list
         /\ length more = if isinstance value Cdict then 1 else 2.
Proof.
  intros parent key value. rewrite subtree_markup.
  destruct parent as [t a x c]. cbn [add_children tag attrib text children].
  repeat split. exists (markup key value). split; [reflexivity|].
  destruct value as [| [] | | | |]; reflexivity.
Qed.

Lemma value_after_key_skip (name : string) (e : Element)
  (rest : list Element) :
  tag e <> "key" ->
  value_after_key name (e :: rest) = value_after_key name rest.
Proof.
  intros H. destruct rest as [|v rest]; [reflexivity|].
  cbn [value_after_key].
  destruct (String.eqb_spec (tag e) "key") as [E|_]; [contradiction|].
  reflexivity.
Qed.

Lemma value_after_key_hit (name : string) (v : Element)
  (rest : list Element) :
  value_after_key name (key_element name :: v :: rest) = Some v.
Proof.
  cbn [value_after_key key_element tag text].
  now rewrite !String.eqb_refl.
Qed.

Lemma value_after_key_miss (name other : string) (v : Element)
  (rest : list Element) :
  other <> name ->
  value_after_key name (key_element other :: v :: rest)
  = value_after_key name (v :: rest).
Proof.
  intros H. cbn [value_after_key key_element tag text].
  destruct (String.eqb_spec other name) as [E|_]; [contradiction|].
  now rewrite andb_false_r.
Qed.

(** The markup of a node: the typed element is no key element. *)
Lemma markup_shape (key : string) (value : pyval) :
  (exists e, markup key value = [e] /\ tag e <> "key"
             /\ value_element value = None)
  \/ (exists e, markup key value = [key_element key; e] /\ tag e <> "key"
                /\ value_element value = Some e).
Proof.
  destruct value as [| [] | | | |];
    first [ left; eexists; split; [reflexivity|]; split;
            [discriminate | reflexivity]
          | right; eexists; split; [reflexivity|]; split;
            [discriminate | reflexivity] ].
Qed.

Lemma value_after_key_absent (name : string) (items : dict) :
  ~ In name (keys items) ->
  value_after_key name (flat_map (fun kv => markup (fst kv) (snd kv)) items)
  = None.
Proof.
  induction items as [|[k v] items IH]; intros H; [reflexivity|].
  cbn [flat_map fst snd].
  assert (Hk : k <> name) by (intros E; apply H; now left).
  assert (Hr : ~ In name (keys items)) by (intros Hin; apply H; now right).
  destruct (markup_shape k v) as [(e & -> & He & _)|(e & -> & He & _)].
  - cbn [app]. rewrite value_after_key_skip by exact He. now apply IH.
  - cbn [app]. rewrite value_after_key_miss by exact Hk.
    rewrite value_after_key_skip by exact He. now apply IH.
Qed.

(** Reading a serialised mapping back.  The children of the [dict] element
    of a mapping with distinct keys hold, after the key element of a key,
    the typed element of its value; a key whose value is itself a mapping
    cannot be read back, for its container stands without key element, and
    neither can a key the mapping does not have. *)
Theorem subtree_read_back :
  forall (parent : Element) (key name : string) (items : dict),
    distinct (keys items) = true ->
    exists container : Element,
      children (_subtree parent key (VDict items))
      = (children parent ++ [container])%list
      /\ tag container = "dict"
      /\ value_after_key name (children container)
         = match lookup items name with
           | Some value => value_element value
           | None => None
           end.
Proof.
  intros parent key name items Hd. rewrite subtree_markup.
  destruct parent as [t a x c]. cbn [add_children children markup].
  eexists. split; [reflexivity|]. split; [reflexivity|].
  cbn [children]. clear t a x c key.
  induction items as [|[k v] items IH]; [reflexivity|].
  apply distinct_cons in Hd. destruct Hd as [Hk Hd].
  cbn [flat_map fst snd lookup].
  destruct (String.eqb_spec k name) as [->|N].
  - destruct (markup_shape name v) as [(e & -> & He & ->)|(e & -> & He & ->)].
    + cbn [app]. rewrite value_after_key_skip by exact He.
      now apply value_after_key_absent.
    + cbn [app]. apply value_after_key_hit.
  - destruct (markup_shape k v) as [(e & -> & He & _)|(e & -> & He & _)].
    + cbn [app]. rewrite value_after_key_skip by exact He. now apply IH.
    + cbn [app]. rewrite value_after_key_miss by exact N.
      rewrite value_after_key_skip by exact He. now apply IH.
Qed.

(** *** Sanitisation: what it keeps *)

Lemma keys_map_values (f : pyval -> pyval) (items : dict) :
  keys (map (fun kv => (fst kv, f (snd kv))) items) = keys items.
Proof.
  unfold keys. rewrite map_map. reflexivity.
Qed.

Lemma skeleton_expand (local domain : string) (value : pyval) :
  skeleton (expand_tree local domain value) = skeleton value.
Proof.
  induction value as [| b | z | s | items IH | elems IH]
    using pyval_ind_nested; try reflexivity.
  - cbn [expand_tree skeleton]. f_equal. rewrite map_map. cbn [fst snd].
    induction IH as [|kv items H _ IHi]; [reflexivity|].
    cbn [map]. now rewrite H, IHi.
  - cbn [expand_tree skeleton]. f_equal. rewrite map_map.
    induction IH as [|v elems H _ IHe]; [reflexivity|].
    cbn [map]. now rewrite H, IHe.
Qed.

Lemma null_keys_expand (local domain : string) (value : pyval) :
  forall key : string,
    null_keys key (expand_tree local domain value) = null_keys key value.
Proof.
  induction value as [| b | z | s | items IH | elems IH]
    using pyval_ind_nested; intros key; try reflexivity.
  - cbn [expand_tree null_keys].
    induction IH as [|kv items H _ IHi]; [reflexivity|].
    cbn [map flat_map fst snd]. now rewrite H, IHi.
  - cbn [expand_tree null_keys].
    induction IH as [|v elems H _ IHe]; [reflexivity|].
    cbn [map flat_map]. now rewrite H, IHe.
Qed.

Lemma type_of_expand (local domain : string) (value : pyval) :
  type_of (expand_tree local domain value) = type_of value.
Proof. now destruct value. Qed.

Lemma well_formed_expand (local domain : string) (value : pyval) :
  well_formed (expand_tree local domain value) = well_formed value.
Proof.
  induction value as [| b | z | s | items IH | elems IH]
    using pyval_ind_nested; try reflexivity.
  - cbn [expand_tree well_formed]. rewrite keys_map_values. f_equal.
    induction IH as [|kv items H _ IHi]; [reflexivity|].
    cbn [map forallb fst snd]. now rewrite H, IHi.
  - cbn [expand_tree well_formed]. unfold isinstance.
    induction IH as [|v elems H _ IHe]; [reflexivity|].
    cbn [map forallb]. now rewrite type_of_expand, H, IHe.
Qed.

(** What a payload tree is sanitised to, when it is. *)
Lemma sanitise_ok_inv (data data' : pyval) (local domain : string) :
  payload_tree data ->
  _sanitise data local domain = Ok data' ->
  null_keys EmptyString data = [] /\ data' = expand_tree local domain data.
Proof.
  intros [Hdict Hwf] H.
  pose proof (sanitise_ok_all local domain data Hwf EmptyString) as Hs.
  destruct data as [| | | | items |]; try discriminate.
  unfold sanitised in Hs. rewrite Hs in H.
  destruct (null_keys EmptyString (VDict items)); [|discriminate].
  injection H as <-. split; reflexivity.
Qed.

(** What [_sanitise] returns can be sanitised again: it is a payload tree
    without null leaf. *)
Lemma sanitise_ok_payload_tree (data data' : pyval) (local domain : string) :
  payload_tree data ->
  _sanitise data local domain = Ok data' ->
  payload_tree data' /\ null_keys EmptyString data' = [].
Proof.
  intros Ht H.
  destruct (sanitise_ok_inv _ _ _ _ Ht H) as [Hn ->].
  destruct Ht as [Hdict Hwf].
  split.
  - split.
    + unfold isinstance. now rewrite type_of_expand.
    + now rewrite well_formed_expand.
  - now rewrite null_keys_expand.
Qed.

(** A successful sanitisation changes nothing but the contents of strings:
    keys and their order, booleans, integers and the lengths of lists are
    those of the tree given; the result is a payload tree again, and has no
    null leaf. *)
Theorem sanitise_keeps_skeleton :
  forall (data data' : pyval) (local domain : string),
    payload_tree data ->
    _sanitise data local domain = Ok data' ->
    skeleton data' = skeleton data
    /\ payload_tree data'
    /\ null_keys EmptyString data' = [].
Proof.
  intros data data' local domain Ht H.
  split; [|exact (sanitise_ok_payload_tree _ _ _ _ Ht H)].
  destruct (sanitise_ok_inv _ _ _ _ Ht H) as [_ ->].
  apply skeleton_expand.
Qed.

Lemma expand_tree_idempotent (local domain : string) (value : pyval) :
  Forall (fun s =>
            expand_placeholders (expand_placeholders s local domain)
              local domain
            = expand_placeholders s local domain)
    (string_leaves value) ->
  expand_tree local domain (expand_tree local domain value)
  = expand_tree local domain value.
Proof.
  induction value as [| b | z | s | items IH | elems IH]
    using pyval_ind_nested; intros Hid; try reflexivity.
  - cbn [expand_tree]. cbn [string_leaves] in Hid.
    inversion Hid as [|? ? Hs _]. now rewrite Hs.
  - cbn [expand_tree]. f_equal. rewrite map_map. cbn [fst snd].
    cbn [string_leaves] in Hid.
    induction IH as [|kv items H _ IHi]; [reflexivity|].
    cbn [flat_map] in Hid. apply Forall_app in Hid. destruct Hid as [H1 H2].
    cbn [map]. now rewrite (H H1), (IHi H2).
  - cbn [expand_tree]. f_equal. rewrite map_map.
    cbn [string_leaves] in Hid.
    induction IH as [|v elems H _ IHe]; [reflexivity|].
    cbn [flat_map] in Hid. apply Forall_app in Hid. destruct Hid as [H1 H2].
    cbn [map]. now rewrite (H H1), (IHe H2).
Qed.

(** Sanitising twice.  When expanding the expansion of each string of a
    payload tree changes nothing, the tree that [_sanitise] returns is
    sanitised to itself: a second pass neither raises nor rewrites. *)
Theorem sanitise_twice :
  forall (data data' : pyval) (local domain : string),
    payload_tree data ->
    Forall (fun s =>
              expand_placeholders (expand_placeholders s local domain)
                local domain
              = expand_placeholders s local domain)
      (string_leaves data) ->
    _sanitise data local domain = Ok data' ->
    _sanitise data' local domain = Ok data'.
Proof.
  intros data data' local domain Ht Hid H.
  destruct (sanitise_ok_payload_tree _ _ _ _ Ht H) as (Ht' & Hn').
  destruct (sanitise_ok_inv _ _ _ _ Ht H) as [_ ->].
  destruct Ht' as [Hdict' Hwf'].
  pose proof (sanitise_ok_all local domain _ Hwf' EmptyString) as Hs.
  destruct data as [| | | | items |]; try (destruct Ht; discriminate).
  change (expand_tree local domain (VDict items))
    with (VDict (map (fun kv => (fst kv, expand_tree local domain (snd kv)))
                   items)) in Hs at 1.
  cbv beta iota in Hs. unfold sanitised in Hs.
  rewrite Hn', (expand_tree_idempotent _ _ _ Hid) in Hs. exact Hs.
Qed.

(** *** Sanitisation and serialisation together *)

Lemma string_texts_add_children (parent : Element) (more : list Element) :
  string_texts (add_children parent more)
  = (string_texts parent ++ flat_map string_texts more)%list.
Proof.
  destruct parent as [t a x c]. cbn [add_children string_texts].
  rewrite !flat_map_concat_map, map_app, concat_app.
  now rewrite app_assoc.
Qed.

Lemma flat_map_texts {A : Type} (f : A -> list Element)
  (g : A -> list string) (l : list A) :
  Forall (fun a => flat_map string_texts (f a) = map Some (g a)) l ->
  flat_map string_texts (flat_map f l) = map Some (flat_map g l).
Proof.
  induction 1 as [|a l Ha _ IH]; [reflexivity|].
  cbn [flat_map].
  rewrite flat_map_app, Ha, IH, map_app. reflexivity.
Qed.

Lemma flat_map_nil_inv {A B : Type} (f : A -> list B) (l : list A) :
  flat_map f l = [] -> Forall (fun a => f a = []) l.
Proof.
  induction l as [|a l IH]; intros H; [constructor|].
  cbn [flat_map] in H. apply app_eq_nil in H. destruct H as [H1 H2].
  constructor; auto.
Qed.

(** The [string] elements in the markup of a tree without null leaf carry
    the strings of the tree, in order. *)
Lemma markup_string_texts (value : pyval) :
  forall key key' : string,
    null_keys key' value = [] ->
    flat_map string_texts (markup key value)
    = map Some (string_leaves value).
Proof.
  induction value as [| b | z | s | items IH | elems IH]
    using pyval_ind_nested; intros key key' Hn; try reflexivity.
  - discriminate.
  - now destruct b.
  - cbn [null_keys] in Hn. apply flat_map_nil_inv in Hn.
    cbn [markup flat_map string_texts string_leaves app].
    rewrite app_nil_r. change (String.eqb "dict" "string") with false.
    cbn [app]. apply flat_map_texts.
    apply Forall_forall. intros kv Hin.
    rewrite Forall_forall in IH, Hn. eapply IH; [exact Hin|].
    apply (Hn kv Hin).
  - cbn [null_keys] in Hn. apply flat_map_nil_inv in Hn.
    cbn [markup flat_map string_texts string_leaves app key_element].
    rewrite !app_nil_r.
    change (String.eqb "key" "string") with false.
    change (String.eqb "array" "string") with false.
    cbn [app]. apply flat_map_texts.
    apply Forall_forall. intros v Hin.
    rewrite Forall_forall in IH, Hn. eapply IH; [exact Hin|].
    apply (Hn v Hin).
Qed.

(** The strings of the document of a sanitised tree: serialising the tree
    that [_sanitise] returns adds [string] elements whose texts are the
    expansions of the strings of the tree given, one for one and in order;
    none of them is without text. *)
Theorem sanitised_document_strings :
  forall (parent : Element) (key : string) (data data' : pyval)
         (local domain : string),
    payload_tree data ->
    _sanitise data local domain = Ok data' ->
    string_texts (_subtree parent key data')
    = (string_texts parent
       ++ map (fun s => Some (expand_placeholders s local domain))
            (string_leaves data))%list.
Proof.
  intros parent key data data' local domain Ht H.
  destruct (sanitise_ok_inv _ _ _ _ Ht H) as [Hn ->].
  rewrite subtree_markup, string_texts_add_children. f_equal.
  rewrite (markup_string_texts _ key EmptyString).
  - now rewrite string_leaves_expand, map_map.
  - rewrite null_keys_expand.
    destruct data as [| | | | items |]; try (destruct Ht; discriminate).
    exact Hn.
Qed.

(** *** Sanitisation: lists that hold something else than mappings *)

Lemma sanitise_items_ok (local domain : string) (items : dict) :
  Forall (fun kv => well_formed (snd kv) = true
                    /\ null_keys (fst kv) (snd kv) = []) items ->
  forall acc : dict,
    exists acc',
      for_each (sanitise_item local domain) items acc = Ok acc'.
Proof.
  induction 1 as [|[k v] items [Hw Hn] _ IH]; intros acc.
  - now exists acc.
  - rewrite for_each_cons. unfold sanitise_item at 1. cbn [fst snd] in *.
    pose proof (sanitise_ok_all local domain v Hw k) as Hs.
    destruct v as [| b | z | s | d | elems]; cbn [is_None isinstance type_of
      issubclass pyclass_eqb orb].
    + discriminate.
    + apply IH.
    + apply IH.
    + apply IH.
    + rewrite Hs. unfold sanitised. rewrite Hn. cbn [res_bind]. apply IH.
    + rewrite Hs, Hn. cbn [res_bind]. apply IH.
Qed.

Lemma sanitise_elements_ok (local domain : string) (key : string)
  (elems : list pyval) :
  Forall (fun v => payload_tree v /\ null_keys key v = []) elems ->
  for_each_map (fun v => _sanitise v local domain) elems
  = Ok (map (expand_tree local domain) elems).
Proof.
  induction 1 as [|v elems [[Hd Hw] Hn] _ IH]; [reflexivity|].
  rewrite for_each_map_cons, IH.
  pose proof (sanitise_ok_all local domain v Hw key) as Hs.
  destruct v as [| | | | d |]; try discriminate.
  rewrite Hs. unfold sanitised. now rewrite Hn.
Qed.

Lemma for_each_map_app_raise {A B : Type} (body : A -> res B)
  (pre post : list A) (a : A) (bs : list B) (e : exn) :
  for_each_map body pre = Ok bs ->
  body a = Raise e ->
  for_each_map body (pre ++ a :: post)%list = Raise e.
Proof.
  revert bs. induction pre as [|x pre IH]; intros bs Hp Ha.
  - cbn [app]. now rewrite for_each_map_cons, Ha.
  - cbn [app]. rewrite for_each_map_cons in *.
    destruct (body x) as [b|e']; [|discriminate].
    destruct (for_each_map body pre) as [bs'|e'] eqn:E; [|discriminate].
    now rewrite (IH bs' eq_refl Ha).
Qed.

(** A list must hold mappings.  When the walk, having met no null leaf,
    comes to a list with an element that is no mapping (a string, a number,
    a list, or [None]), [_sanitise] raises [AttributeError] for the class
    of that element: a null among the elements of a list is not reported
    as a missing value. *)
Theorem sanitise_list_of_non_mapping :
  forall (before after : dict) (key : string) (pre post : list pyval)
         (e : pyval) (local domain : string),
    Forall (fun kv => well_formed (snd kv) = true
                      /\ null_keys (fst kv) (snd kv) = []) before ->
    Forall (fun v => payload_tree v /\ null_keys key v = []) pre ->
    isinstance e Cdict = false ->
    _sanitise
      (VDict (before ++ (key, VList (pre ++ e :: post)) :: after)%list)
      local domain
    = Raise (AttributeError
               ("'" ++ class_name (type_of e)
                ++ "' object has no attribute 'items'")).
Proof.
  intros before after key pre post e local domain Hb Hp He.
  rewrite sanitise_dict, for_each_app.
  destruct (sanitise_items_ok local domain before Hb
              (before ++ (key, VList (pre ++ e :: post)) :: after)%list)
    as [acc' ->].
  cbn [res_bind]. rewrite for_each_cons.
  unfold sanitise_item at 1.
  cbn [fst snd is_None isinstance type_of issubclass pyclass_eqb orb].
  assert (Hr : _sanitise e local domain
               = Raise (AttributeError
                          ("'" ++ class_name (type_of e)
                           ++ "' object has no attribute 'items'"))).
  { destruct e as [| | | | d |]; try reflexivity. discriminate. }
  rewrite (for_each_map_app_raise
             (fun v => _sanitise v local domain) pre post e _ _
             (sanitise_elements_ok local domain key pre Hp) Hr).
  reflexivity.
Qed.

(** *** The outcomes of a request *)

(** An exception of the fill is that of a server of the collection. *)
Lemma fill_raise (inner : ref) (servers : list Server.t) :
  forall (outer : dict) (e : exn),
    for_each (client_config_server inner) servers outer = Raise e ->
    exists s,
      In s servers
      /\ (e = InvalidServerType
               ("Invalid server type " ++ quoted (Server.type s))
          \/ e = InvalidAuthenticationType
                   ("Invalid authentication type "
                    ++ quoted (Server.authentication s))).
Proof.
  induction servers as [|s servers IH]; intros outer e H; [discriminate|].
  rewrite for_each_cons in H.
  destruct (client_config_server inner outer s) as [outer'|e'] eqn:E.
  - destruct (IH _ _ H) as (s' & Hin & He). exists s'. split; [now right|].
    exact He.
  - injection H as <-. exists s. split; [now left|].
    unfold client_config_server in E.
    destruct (lookup TYPE_DIRECTION_MAP (Server.type s)) as [direction|].
    + unfold _map_authentication in E.
      destruct (lookup AUTH_MAP (Server.authentication s)) as [a|];
        [discriminate|].
      cbn [res_bind] in E. injection E as <-. now right.
    + injection E as <-. now left.
Qed.

(** How the second half of a request can end in an exception. *)
Lemma client_config_plist_raise
  (local_part domain_part realname : string) (domain : Domain.t)
  (lookup_result : option LookupResult.t) (e : exn) :
  client_config_plist local_part domain_part realname domain lookup_result
  = Raise e ->
  (exists s,
      In s (Domain.servers domain)
      /\ (e = InvalidServerType
               ("Invalid server type " ++ quoted (Server.type s))
          \/ e = InvalidAuthenticationType
                   ("Invalid authentication type "
                    ++ quoted (Server.authentication s))))
  \/ e = missing_value "IncomingMailServerHostName"
  \/ e = missing_value "OutgoingMailServerHostName".
Proof.
  unfold client_config_plist. rewrite payload_filled. intros H.
  destruct (for_each (client_config_server inner_ref) (Domain.servers domain)
              (filled local_part domain_part None None)) as [outer|e'] eqn:Ef.
  - pose proof (fill_ok_valid _ _ _ _ Ef) as Hv.
    rewrite (fill_all _ _ _ Hv) in Ef. injection Ef as <-.
    cbn [res_bind] in H. right.
    destruct (last_of_type "imap" (Domain.servers domain) None)
      as [incoming|].
    + destruct (last_of_type "smtp" (Domain.servers domain) None)
        as [outgoing|].
      * destruct (sanitise_filled_account_name local_part domain_part
                    (client_config_realname lookup_result realname)
                    incoming outgoing) as (tree & Hs & _).
        rewrite Hs in H. discriminate H.
      * rewrite sanitise_filled_without_outgoing in H.
        injection H as <-. now right.
    + rewrite sanitise_filled_without_incoming in H.
      injection H as <-. now left.
  - cbn [res_bind] in H. injection H as <-. left.
    eapply fill_raise. exact Ef.
Qed.

(** All a request can do.  It returns the empty string; or the bytes of
    the plist built for the domain of the request, after a directory step
    that let it through; or it raises one of: the three errors of the
    resolution; the error of the search filter of the directory server of
    the domain, when the template cannot be formatted; [LdapLookupError],
    when the directory answered with the status error; [InvalidServerType]
    or [InvalidAuthenticationType] for a server of the domain; and the
    missing-value error for the host name of the incoming or of the
    outgoing direction.  Of the keys of the payload no other is ever
    reported missing. *)
Theorem client_config_outcomes :
  forall local_part domain_part realname password : string,
    match result (client_config local_part domain_part realname password) with
    | Ok (PyStr s) => s = EmptyString
    | Ok (PyBytes b) =>
        exists domain lookup_result plist,
          Domain_query_first domain_part = Some domain
          /\ lookup_passes local_part domain_part domain lookup_result
          /\ client_config_plist local_part domain_part realname domain
               lookup_result = Ok plist
          /\ b = tostring plist "utf-8"
    | Raise e =>
        e = DomainNotFound ("Domain " ++ quoted domain_part ++ " not found")
        \/ e = NoProviderForDomain
                 ("No provider for domain " ++ quoted domain_part)
        \/ e = NoServersForDomain
                 ("No servers for domain " ++ quoted domain_part)
        \/ (exists domain ldapserver,
               Domain_query_first domain_part = Some domain
               /\ Domain.ldapserver domain = Some ldapserver
               /\ str_format (Ldapserver.search_filter ldapserver)
                    (local_part ++ "@" ++ domain_part) = None
               /\ e = FormatError)
        \/ (exists domain ldapserver r,
               Domain_query_first domain_part = Some domain
               /\ Domain.ldapserver domain = Some ldapserver
               /\ directory_answer (local_part ++ "@" ++ domain_part)
                    ldapserver = Some r
               /\ LookupResult.status r = STATUS_ERROR
               /\ e = LdapLookupError "LDAP bind failed")
        \/ (exists domain s,
               Domain_query_first domain_part = Some domain
               /\ In s (Domain.servers domain)
               /\ (e = InvalidServerType
                        ("Invalid server type " ++ quoted (Server.type s))
                   \/ e = InvalidAuthenticationType
                            ("Invalid authentication type "
                             ++ quoted (Server.authentication s))))
        \/ e = missing_value "IncomingMailServerHostName"
        \/ e = missing_value "OutgoingMailServerHostName"
    end.
Proof.
  intros local_part domain_part realname password.
  destruct (Domain_query_first domain_part) as [domain|] eqn:Hd;
    [|unfold client_config; rewrite Hd; cbn [result raise]; now left].
  destruct (Domain.provider domain) as [provider|] eqn:Hp;
    [|unfold client_config; rewrite Hd, Hp; cbn [result raise];
      right; now left].
  destruct (Domain.servers domain) as [|s0 ss] eqn:Es;
    [unfold client_config; rewrite Hd, Hp, Es; cbn [result raise];
     right; right; now left|].
  assert (Hne : Domain.servers domain <> []) by (rewrite Es; discriminate).
  rewrite (client_config_resolved _ _ _ _ _ _ Hd Hp Hne).
  assert (Hplist : forall lookup_result,
    lookup_passes local_part domain_part domain lookup_result ->
    match client_config_plist local_part domain_part realname domain
            lookup_result with
    | Ok plist =>
        exists domain' lookup_result' plist',
          Some domain = Some domain'
          /\ lookup_passes local_part domain_part domain' lookup_result'
          /\ client_config_plist local_part domain_part realname domain'
               lookup_result' = Ok plist'
          /\ tostring plist "utf-8" = tostring plist' "utf-8"
    | Raise e =>
        (exists domain' s,
            Some domain = Some domain'
            /\ In s (Domain.servers domain')
            /\ (e = InvalidServerType
                     ("Invalid server type " ++ quoted (Server.type s))
                \/ e = InvalidAuthenticationType
                         ("Invalid authentication type "
                          ++ quoted (Server.authentication s))))
        \/ e = missing_value "IncomingMailServerHostName"
        \/ e = missing_value "OutgoingMailServerHostName"
    end).
  { intros lookup_result Hl.
    destruct (client_config_plist local_part domain_part realname domain
                lookup_result) as [plist|e] eqn:E.
    - exists domain, lookup_result, plist.
      split; [reflexivity|]. split; [exact Hl|].
      split; [exact E | reflexivity].
    - apply client_config_plist_raise in E.
      destruct E as [(s & Hin & He)|E]; [|right; exact E].
      left. exists domain, s.
      split; [reflexivity|]. split; [exact Hin | exact He]. }
  destruct (Domain.ldapserver domain) as [ldapserver|] eqn:El.
  - destruct (directory_answer (local_part ++ "@" ++ domain_part) ldapserver)
      as [r|] eqn:Ea; cbn [result].
    + destruct (LookupResult.status r) eqn:Est.
      * assert (Hl : lookup_passes local_part domain_part domain (Some r)).
        { unfold lookup_passes. rewrite El. exists r.
          split; [reflexivity|]. split; [exact Ea|].
          rewrite Est. split; discriminate. }
        specialize (Hplist (Some r) Hl).
        destruct (client_config_plist local_part domain_part realname domain
                    (Some r)) as [plist|e]; cbn [res_bind].
        -- exact Hplist.
        -- do 5 right. exact Hplist.
      * reflexivity.
      * do 4 right. left. exists domain, ldapserver, r.
        split; [reflexivity|]. split; [exact El|]. split; [exact Ea|].
        split; [exact Est | reflexivity].
    + do 3 right. left. exists domain, ldapserver.
      split; [reflexivity|]. split; [exact El|].
      unfold directory_answer in Ea.
      destruct (str_format (Ldapserver.search_filter ldapserver)
                  (local_part ++ "@" ++ domain_part));
        [discriminate Ea | split; reflexivity].
  - cbn [result].
    assert (Hl : lookup_passes local_part domain_part domain None).
    { unfold lookup_passes. now rewrite El. }
    specialize (Hplist None Hl).
    destruct (client_config_plist local_part domain_part realname domain None)
      as [plist|e]; cbn [res_bind].
    + exact Hplist.
    + do 5 right. exact Hplist.
Qed.

(** The empty string is the answer to no-match and to nothing else: a
    request that returns a [str] returns the empty one, and has made one
    lookup, which the directory of the domain answered no-match. *)
Theorem client_config_empty_only_on_no_match :
  forall local_part domain_part realname password s : string,
    result (client_config local_part domain_part realname password)
    = Ok (PyStr s) ->
    s = EmptyString
    /\ exists domain ldapserver r,
         Domain_query_first domain_part = Some domain
         /\ Domain.ldapserver domain = Some ldapserver
         /\ events (client_config local_part domain_part realname password)
            = [DirectoryLookup (local_part ++ "@" ++ domain_part)
                 ldapserver r]
         /\ LookupResult.status r = STATUS_NO_MATCH.
Proof.
  intros local_part domain_part realname password s H.
  destruct (Domain_query_first domain_part) as [domain|] eqn:Hd;
    [|unfold client_config in H; rewrite Hd in H; discriminate].
  destruct (Domain.provider domain) as [provider|] eqn:Hp;
    [|unfold client_config in H; rewrite Hd, Hp in H; discriminate].
  destruct (Domain.servers domain) as [|s0 ss] eqn:Es;
    [unfold client_config in H; rewrite Hd, Hp, Es in H; discriminate|].
  assert (Hne : Domain.servers domain <> []) by (rewrite Es; discriminate).
  rewrite (client_config_resolved _ _ _ _ _ _ Hd Hp Hne) in *.
  destruct (Domain.ldapserver domain) as [ldapserver|] eqn:El.
  - destruct (directory_answer _ _) as [r|]; [|discriminate].
    cbn [result events] in *.
    destruct (LookupResult.status r) eqn:Est.
    + destruct (client_config_plist _ _ _ _ _); discriminate.
    + injection H as <-. split; [reflexivity|].
      exists domain, ldapserver, r. auto.
    + discriminate.
  - cbn [result] in H. destruct (client_config_plist _ _ _ _ _); discriminate.
Qed.

(** A directory that cannot be reached is fatal: when the lookup the
    request makes is answered with the status error, the request raises
    [LdapLookupError], whatever the servers of the domain. *)
Theorem client_config_lookup_error :
  forall (local_part domain_part realname password : string)
         (ldapserver : Ldapserver.t) (r : LookupResult.t),
    In (DirectoryLookup (local_part ++ "@" ++ domain_part) ldapserver r)
       (events (client_config local_part domain_part realname password)) ->
    LookupResult.status r = STATUS_ERROR ->
    result (client_config local_part domain_part realname password)
    = Raise (LdapLookupError "LDAP bind failed").
Proof.
  intros local_part domain_part realname password ldapserver r Hev Hs.
  destruct (Domain_query_first domain_part) as [domain|] eqn:Hd;
    [|unfold client_config in Hev; rewrite Hd in Hev; destruct Hev].
  destruct (Domain.provider domain) as [provider|] eqn:Hp;
    [|unfold client_config in Hev; rewrite Hd, Hp in Hev; destruct Hev].
  destruct (Domain.servers domain) as [|s0 ss] eqn:Es;
    [unfold client_config in Hev; rewrite Hd, Hp, Es in Hev; destruct Hev|].
  assert (Hne : Domain.servers domain <> []) by (rewrite Es; discriminate).
  rewrite (client_config_resolved _ _ _ _ _ _ Hd Hp Hne) in *.
  destruct (Domain.ldapserver domain) as [l|]; [|destruct Hev].
  destruct (directory_answer _ _) as [r0|]; [|destruct Hev].
  cbn [result events] in *. destruct Hev as [E|[]].
  injection E as _ <-. now rewrite Hs.
Qed.

(** When a request succeeds.  For a domain that is found, has a provider,
    has only valid servers, among them an imap and an smtp server, a
    request that gets past the directory step returns the bytes of the
    plist element: it does not raise. *)
Theorem client_config_succeeds :
  forall (local_part domain_part realname password : string)
         (domain : Domain.t) (provider : Provider.t)
         (lookup_result : option LookupResult.t),
    Domain_query_first domain_part = Some domain ->
    Domain.provider domain = Some provider ->
    Forall valid_server (Domain.servers domain) ->
    (exists s, In s (Domain.servers domain) /\ Server.type s = "imap") ->
    (exists s, In s (Domain.servers domain) /\ Server.type s = "smtp") ->
    lookup_passes local_part domain_part domain lookup_result ->
    exists plist : Element,
      client_config_plist local_part domain_part realname domain
        lookup_result = Ok plist
      /\ result (client_config local_part domain_part realname password)
         = Ok (PyBytes (tostring plist "utf-8")).
Proof.
  intros local_part domain_part realname password domain provider
         lookup_result Hd Hp Hv [si [Hsi Hti]] [so [Hso Hto]] Hl.
  assert (Hne : Domain.servers domain <> []).
  { intros E. rewrite E in Hsi. destruct Hsi. }
  rewrite (client_config_past_lookup _ _ _ _ _ _ _ Hd Hp Hne Hl).
  unfold client_config_plist.
  rewrite payload_filled, (fill_all _ _ _ Hv). cbn [res_bind].
  destruct (last_of_type "imap" (Domain.servers domain) None)
    as [incoming|] eqn:Ei;
    [|exfalso; apply (proj1 (last_of_type_none _ _) Ei si Hsi Hti)].
  destruct (last_of_type "smtp" (Domain.servers domain) None)
    as [outgoing|] eqn:Eo;
    [|exfalso; apply (proj1 (last_of_type_none _ _) Eo so Hso Hto)].
  destruct (sanitise_filled_account_name local_part domain_part
              (client_config_realname lookup_result realname)
              incoming outgoing) as (tree & Hs & _).
  rewrite Hs. cbn [res_bind]. eexists. split; reflexivity.
Qed.

(** *** The schema of a document *)

Lemma sanitise_filled_schema (local domain name : string)
  (incoming outgoing : Server.t) :
  exists tree,
    _sanitise
      (VDict (ref_setitem
                (filled local domain (Some incoming) (Some outgoing))
                inner_ref "EmailAccountName" (VStr name)))
      local domain
    = Ok tree
    /\ let plist :=
         _subtree (new "plist" [("version", "1.0")]) EmptyString tree in
       let expanded s :=
         Some (string_element (expand_placeholders s local domain)) in
       let flag (b : bool) :=
         Some (Elem (if b then "true" else "false") [] None []) in
       (account_field plist "EmailAccountDescription"
        = expanded (local ++ "@" ++ domain)
        /\ account_field plist "EmailAccountType" = expanded "EmailTypeIMAP"
        /\ account_field plist "EmailAddress"
           = expanded (local ++ "@" ++ domain)
        /\ account_field plist "OutgoingPasswordSameAsIncomingPassword"
           = flag true
        /\ account_field plist "PayloadDescription"
           = expanded ("Email account configuration for "
                       ++ local ++ "@" ++ domain)
        /\ account_field plist "PayloadDisplayName" = expanded domain
        /\ account_field plist "PayloadType"
           = expanded "com.apple.mail.managed"
        /\ account_field plist "PayloadVersion"
           = Some (Elem "integer" [] (Some "1") [])
        /\ account_field plist "SMIMEEnablePerMessageSwitch" = flag false
        /\ account_field plist "SMIMEEnabled" = flag false
        /\ account_field plist "SMIMEEncryptionEnabled" = flag false
        /\ account_field plist "SMIMESigningEnabled" = flag false
        /\ account_field plist "allowMailDrop" = flag false
        /\ account_field plist "disableMailRecentsSyncing" = flag false)
       /\ (account_field plist "PayloadUUID" = expanded (unique 0)
           /\ account_field plist "PayloadIdentifier"
              = expanded ("com.apple.mail.managed." ++ unique 0)
           /\ envelope_field plist "PayloadUUID" = expanded (unique 1)
           /\ envelope_field plist "PayloadIdentifier"
              = expanded (branded_id (unique 1)))
       /\ (envelope_field plist "PayloadDisplayName"
           = expanded ("Mail account " ++ domain)
           /\ envelope_field plist "PayloadRemovalDisallowed" = flag false
           /\ envelope_field plist "PayloadType" = expanded "Configuration"
           /\ envelope_field plist "PayloadVersion"
              = Some (Elem "integer" [] (Some "1") [])
           /\ exists account,
                envelope_field plist "PayloadContent"
                = Some (Elem "array" [] None [account])
                /\ tag account = "dict")
       /\ (account_field plist "IncomingMailServerAuthentication"
           = expanded
               match lookup AUTH_MAP (Server.authentication incoming) with
               | Some a => a
               | None => EmptyString
               end
           /\ account_field plist "OutgoingMailServerAuthentication"
              = expanded
                  match lookup AUTH_MAP (Server.authentication outgoing) with
                  | Some a => a
                  | None => EmptyString
                  end).
Proof.
  destruct incoming as [ty nm pt un au st].
  destruct outgoing as [ty' nm' pt' un' au' st'].
  unfold filled, fill_direction, _map_socket_type.
  cbn [Server.socket_type Server.authentication].
  destruct (String.eqb "SSL" st || String.eqb "STARTTLS" st);
    destruct (String.eqb "SSL" st' || String.eqb "STARTTLS" st');
    (eexists; split; [vm_compute; reflexivity|]);
    cbv zeta; repeat split;
    try (vm_compute; reflexivity);
    (eexists; split; [vm_compute; reflexivity | reflexivity]).
Qed.

Lemma client_config_plist_schema
  (local_part domain_part realname : string) (domain : Domain.t)
  (lookup_result : option LookupResult.t) (plist : Element) :
  client_config_plist local_part domain_part realname domain lookup_result
  = Ok plist ->
  exists incoming outgoing tree,
    (In incoming (Domain.servers domain) /\ valid_server incoming)
    /\ (In outgoing (Domain.servers domain) /\ valid_server outgoing)
    /\ last_of_type "imap" (Domain.servers domain) None = Some incoming
    /\ last_of_type "smtp" (Domain.servers domain) None = Some outgoing
    /\ _sanitise
         (VDict (ref_setitem
                   (filled local_part domain_part
                      (Some incoming) (Some outgoing))
                   inner_ref "EmailAccountName"
                   (VStr (client_config_realname lookup_result realname))))
         local_part domain_part
       = Ok tree
    /\ plist = _subtree (new "plist" [("version", "1.0")]) EmptyString tree.
Proof.
  intros H. apply client_config_plist_filled in H.
  destruct H as (Hv & incoming & outgoing & tree & Ei & Eo & Hs & Hp).
  exists incoming, outgoing, tree.
  pose proof (last_of_type_in _ _ _ _ Ei) as Hi.
  pose proof (last_of_type_in _ _ _ _ Eo) as Ho.
  destruct Hi as [Hi|[Hi _]]; [discriminate Hi|].
  destruct Ho as [Ho|[Ho _]]; [discriminate Ho|].
  rewrite Forall_forall in Hv.
  split; [split; [exact Hi | now apply Hv]|].
  split; [split; [exact Ho | now apply Hv]|].
  split; [exact Ei|]. split; [exact Eo|]. split; [exact Hs | exact Hp].
Qed.

(** The fixed part of the account description.  Every document describes
    an IMAP account for [local@domain]: description and address are the
    address, the display name is the domain, the outgoing password is the
    incoming one, S/MIME, mail drop and the recents switch are off, the
    payload is of type [com.apple.mail.managed] and of version 1.  The
    strings are written as their placeholder expansions. *)
Theorem client_config_account_schema :
  forall (local_part domain_part realname : string) (domain : Domain.t)
         (lookup_result : option LookupResult.t) (plist : Element),
    client_config_plist local_part domain_part realname domain lookup_result
    = Ok plist ->
    let expanded s :=
      Some (string_element
              (expand_placeholders s local_part domain_part)) in
    let flag (b : bool) :=
      Some (Elem (if b then "true" else "false") [] None []) in
    account_field plist "EmailAccountDescription"
    = expanded (local_part ++ "@" ++ domain_part)
    /\ account_field plist "EmailAccountType" = expanded "EmailTypeIMAP"
    /\ account_field plist "EmailAddress"
       = expanded (local_part ++ "@" ++ domain_part)
    /\ account_field plist "OutgoingPasswordSameAsIncomingPassword"
       = flag true
    /\ account_field plist "PayloadDescription"
       = expanded ("Email account configuration for "
                   ++ local_part ++ "@" ++ domain_part)
    /\ account_field plist "PayloadDisplayName" = expanded domain_part
    /\ account_field plist "PayloadType" = expanded "com.apple.mail.managed"
    /\ account_field plist "PayloadVersion"
       = Some (Elem "integer" [] (Some "1") [])
    /\ account_field plist "SMIMEEnablePerMessageSwitch" = flag false
    /\ account_field plist "SMIMEEnabled" = flag false
    /\ account_field plist "SMIMEEncryptionEnabled" = flag false
    /\ account_field plist "SMIMESigningEnabled" = flag false
    /\ account_field plist "allowMailDrop" = flag false
    /\ account_field plist "disableMailRecentsSyncing" = flag false.
Proof.
  intros local_part domain_part realname domain lookup_result plist H.
  apply client_config_plist_schema in H.
  destruct H as (incoming & outgoing & tree & _ & _ & _ & _ & Hs & ->).
  destruct (sanitise_filled_schema local_part domain_part
              (client_config_realname lookup_result realname)
              incoming outgoing) as (tree' & Hs' & Hf & _).
  pose proof (eq_trans (eq_sym Hs) Hs') as E. injection E as <-.
  exact Hf.
Qed.

(** The identifiers of a document come from two calls of [unique], the
    first for the account and the second for the envelope: each part
    carries its own UUID, the identifier of the account is the UUID behind
    [com.apple.mail.managed.], and that of the envelope is the branded
    UUID. *)
Theorem client_config_identifiers :
  forall (local_part domain_part realname : string) (domain : Domain.t)
         (lookup_result : option LookupResult.t) (plist : Element),
    client_config_plist local_part domain_part realname domain lookup_result
    = Ok plist ->
    let expanded s :=
      Some (string_element
              (expand_placeholders s local_part domain_part)) in
    account_field plist "PayloadUUID" = expanded (unique 0)
    /\ account_field plist "PayloadIdentifier"
       = expanded ("com.apple.mail.managed." ++ unique 0)
    /\ envelope_field plist "PayloadUUID" = expanded (unique 1)
    /\ envelope_field plist "PayloadIdentifier"
       = expanded (branded_id (unique 1)).
Proof.
  intros local_part domain_part realname domain lookup_result plist H.
  apply client_config_plist_schema in H.
  destruct H as (incoming & outgoing & tree & _ & _ & _ & _ & Hs & ->).
  destruct (sanitise_filled_schema local_part domain_part
              (client_config_realname lookup_result realname)
              incoming outgoing) as (tree' & Hs' & _ & Hf & _).
  pose proof (eq_trans (eq_sym Hs) Hs') as E. injection E as <-.
  exact Hf.
Qed.

(** The envelope of a document: a configuration of version 1 that may be
    removed, named after the domain, whose content is an array of exactly
    one account description. *)
Theorem client_config_envelope :
  forall (local_part domain_part realname : string) (domain : Domain.t)
         (lookup_result : option LookupResult.t) (plist : Element),
    client_config_plist local_part domain_part realname domain lookup_result
    = Ok plist ->
    let expanded s :=
      Some (string_element
              (expand_placeholders s local_part domain_part)) in
    envelope_field plist "PayloadDisplayName"
    = expanded ("Mail account " ++ domain_part)
    /\ envelope_field plist "PayloadRemovalDisallowed"
       = Some (Elem "false" [] None [])
    /\ envelope_field plist "PayloadType" = expanded "Configuration"
    /\ envelope_field plist "PayloadVersion"
       = Some (Elem "integer" [] (Some "1") [])
    /\ exists account,
         envelope_field plist "PayloadContent"
         = Some (Elem "array" [] None [account])
         /\ tag account = "dict".
Proof.
  intros local_part domain_part realname domain lookup_result plist H.
  apply client_config_plist_schema in H.
  destruct H as (incoming & outgoing & tree & _ & _ & _ & _ & Hs & ->).
  destruct (sanitise_filled_schema local_part domain_part
              (client_config_realname lookup_result realname)
              incoming outgoing) as (tree' & Hs' & _ & _ & Hf & _).
  pose proof (eq_trans (eq_sym Hs) Hs') as E. injection E as <-.
  exact Hf.
Qed.

(** The authentication of each direction is the scheme that the kind of
    its last server maps to; it replaces the [EmailAuthPassword] of the
    base payload. *)
Theorem client_config_authentication_fields :
  forall (local_part domain_part realname : string) (domain : Domain.t)
         (lookup_result : option LookupResult.t) (plist : Element),
    client_config_plist local_part domain_part realname domain lookup_result
    = Ok plist ->
    exists (incoming outgoing : Server.t) (scheme_in scheme_out : string),
      last_of_type "imap" (Domain.servers domain) None = Some incoming
      /\ last_of_type "smtp" (Domain.servers domain) None = Some outgoing
      /\ _map_authentication incoming = Ok scheme_in
      /\ _map_authentication outgoing = Ok scheme_out
      /\ account_field plist "IncomingMailServerAuthentication"
         = Some (string_element
                   (expand_placeholders scheme_in local_part domain_part))
      /\ account_field plist "OutgoingMailServerAuthentication"
         = Some (string_element
                   (expand_placeholders scheme_out local_part domain_part)).
Proof.
  intros local_part domain_part realname domain lookup_result plist H.
  apply client_config_plist_schema in H.
  destruct H as (incoming & outgoing & tree
                 & [_ [_ Hai]] & [_ [_ Hao]] & Ei & Eo & Hs & ->).
  destruct (sanitise_filled_schema local_part domain_part
              (client_config_realname lookup_result realname)
              incoming outgoing) as (tree' & Hs' & _ & _ & _ & Hfi & Hfo).
  pose proof (eq_trans (eq_sym Hs) Hs') as E. injection E as <-.
  apply known_authentication_lookup in Hai, Hao.
  destruct (lookup AUTH_MAP (Server.authentication incoming)) as [a|] eqn:Ea;
    [|congruence].
  destruct (lookup AUTH_MAP (Server.authentication outgoing)) as [b|] eqn:Eb;
    [|congruence].
  exists incoming, outgoing, a, b.
  split; [exact Ei|]. split; [exact Eo|].
  split; [unfold _map_authentication; rewrite Ea; reflexivity|].
  split; [unfold _map_authentication; rewrite Eb; reflexivity|].
  split; [exact Hfi | exact Hfo].
Qed.

(** The fill writes to keys the payload has.  After the fill the envelope
    and the account description have the keys of the base payload, in the
    same order: no server adds a key or removes one. *)
Theorem fill_keeps_keys :
  forall (local domain : string) (servers : list Server.t) (outer' : dict),
    for_each (client_config_server (fst (_payload local domain))) servers
      (snd (_payload local domain))
    = Ok outer' ->
    keys outer' = keys (snd (_payload local domain))
    /\ option_map keys (ref_getitem outer' (fst (_payload local domain)))
       = option_map keys
           (ref_getitem (snd (_payload local domain))
              (fst (_payload local domain))).
Proof.
  intros local domain servers outer'.
  rewrite payload_filled. cbn [fst snd]. intros H.
  pose proof (fill_ok_valid _ _ _ _ H) as Hv.
  rewrite (fill_all _ _ _ Hv) in H. injection H as <-.
  destruct (last_of_type "imap" servers None);
    destruct (last_of_type "smtp" servers None);
    split; vm_compute; reflexivity.
Qed.

End Generators.

(* ================================================================== *)
(** ** The generator on the sample installation *)

Abbreviation on_sample f :=
  (f "automx2" Sample.unique Sample.expand_placeholders Sample.format
     (Sample.directory Sample.entries) Sample.tostring Sample.domains).

Abbreviation sample_client_config := (on_sample client_config).

(** The example of the spec: one imap and one smtp server, no directory. *)
Example client_config_example_com :
  exists plist,
    client_config_plist "automx2" Sample.unique Sample.expand_placeholders
      "alice" "example.com" "Alice A." Sample.example_com None = Ok plist
    /\ sample_client_config "alice" "example.com" "Alice A." "secret"
       = Run [] (Ok (PyBytes (Sample.tostring plist "utf-8")))
    /\ account_field plist "IncomingMailServerHostName"
       = Some (string_element "mail.example.com")
    /\ account_field plist "IncomingMailServerUseSSL"
       = Some (Elem "true" [] None [])
    /\ account_field plist "OutgoingMailServerUseSSL"
       = Some (Elem "true" [] None [])
    /\ account_field plist "EmailAccountName"
       = Some (string_element "Alice A.").
Proof.
  eexists. split; [vm_compute; reflexivity|].
  repeat split; vm_compute; reflexivity.
Qed.

(** *** C1 *)


(** *** C2 *)

Lemma client_config_resolution_errors_witness :
  sample_client_config "alice" "nowhere.example" "Alice A." "secret"
  = raise (DomainNotFound ("Domain " ++ quoted "nowhere.example"
                           ++ " not found"))
  /\ sample_client_config "alice" "orphan.example" "Alice A." "secret"
     = raise (NoProviderForDomain
                ("No provider for domain " ++ quoted "orphan.example"))
  /\ sample_client_config "alice" "empty.example" "Alice A." "secret"
     = raise (NoServersForDomain
                ("No servers for domain " ++ quoted "empty.example")).
Proof.
  split; [|split].
  - apply (on_sample client_config_resolution_errors
             "alice" "nowhere.example" "Alice A." "secret").
    intros d Hd. simpl in Hd.
    repeat (destruct Hd as [<-|Hd]; [discriminate|]). destruct Hd.
  - apply (on_sample client_config_resolution_errors
             "alice" "orphan.example" "Alice A." "secret") with Sample.orphan;
      reflexivity.
  - apply (on_sample client_config_resolution_errors
             "alice" "empty.example" "Alice A." "secret")
      with Sample.empty Sample.provider; reflexivity.
Defined.

(** *** C3 *)

(** A server whose type and authentication kind are both unknown: the
    request fails on the type, and not with [InvalidAuthenticationType].
    And a server of unknown type behind one of unknown authentication
    kind: the request fails on the first. *)
Lemma invalid_server_errors_depend_on_order :
  (~ known_type Sample.pop3 /\ ~ known_authentication Sample.pop3)
  /\ result (sample_client_config "alice" "pop.example" "Alice A." "secret")
     = Raise (InvalidServerType ("Invalid server type " ++ quoted "pop3"))
  /\ (forall msg,
         result (sample_client_config "alice" "pop.example" "Alice A."
                   "secret")
         <> Raise (InvalidAuthenticationType msg))
  /\ Domain.servers Sample.mixed = [Sample.smtp_digest; Sample.pop3]
  /\ result (sample_client_config "alice" "mixed.example" "Alice A." "secret")
     = Raise (InvalidAuthenticationType
                ("Invalid authentication type " ++ quoted "digest"))
  /\ (forall msg,
         result (sample_client_config "alice" "mixed.example" "Alice A."
                   "secret")
         <> Raise (InvalidServerType msg)).
Proof.
  repeat split.
  - unfold known_type. simpl. intros [H|H]; discriminate.
  - unfold known_authentication. simpl. intros [H|[H|H]]; discriminate.
  - intros msg. vm_compute. discriminate.
  - intros msg. vm_compute. discriminate.
Qed.

Lemma client_config_first_invalid_server_witness :
  result (sample_client_config "alice" "pop.example" "Alice A." "secret")
  = Raise (InvalidServerType ("Invalid server type " ++ quoted "pop3"))
  /\ result (sample_client_config "alice" "digest.example" "Alice A."
               "secret")
     = Raise (InvalidAuthenticationType
                ("Invalid authentication type " ++ quoted "digest")).
Proof.
  split.
  - apply (on_sample client_config_first_invalid_server
             "alice" "pop.example" "Alice A." "secret"
             Sample.pop_only Sample.provider None [] [] Sample.pop3).
    + reflexivity.
    + reflexivity.
    + reflexivity.
    + reflexivity.
    + constructor.
    + unfold known_type. simpl. intros [H|H]; discriminate.
  - apply (on_sample client_config_first_invalid_server
             "alice" "digest.example" "Alice A." "secret"
             Sample.digest Sample.provider None
             [Sample.imap] [] Sample.smtp_digest).
    + reflexivity.
    + reflexivity.
    + reflexivity.
    + reflexivity.
    + constructor; [|constructor].
      split; [left; reflexivity | right; right; reflexivity].
    + right. reflexivity.
    + unfold known_authentication. simpl. intros [H|[H|H]]; discriminate.
Defined.

(** *** C4 *)

Lemma ldap_lookup_raises_iff_status_error_witness :
  result (_ldap_lookup Sample.format (Sample.directory Sample.entries)
            "mallory@corp.example" Sample.ldapserver)
  = Raise (LdapLookupError "LDAP bind failed")
  /\ result (_ldap_lookup Sample.format (Sample.directory Sample.entries)
               "alice@corp.example" Sample.ldapserver)
     = Ok {| LookupResult.status := STATUS_SUCCESS;
             LookupResult.cn := Some "Alice Liddell";
             LookupResult.uid := Some "alice" |}
  /\ result (_ldap_lookup Sample.format (Sample.directory Sample.entries)
               "bob@corp.example" Sample.ldapserver)
     = Ok {| LookupResult.status := STATUS_NO_MATCH;
             LookupResult.cn := None;
             LookupResult.uid := None |}.
Proof.
  split; [|split].
  - destruct (proj2 (proj1 (ldap_lookup_raises_iff_status_error
                       Sample.format (Sample.directory Sample.entries)
                       "mallory@corp.example" Sample.ldapserver)))
      as [msg H].
    + eexists. split; [vm_compute; left; reflexivity | reflexivity].
    + rewrite H. vm_compute in H. symmetry. exact H.
  - apply (ldap_lookup_raises_iff_status_error
             Sample.format (Sample.directory Sample.entries)
             "alice@corp.example" Sample.ldapserver).
    + vm_compute. left. reflexivity.
    + discriminate.
  - apply (ldap_lookup_raises_iff_status_error
             Sample.format (Sample.directory Sample.entries)
             "bob@corp.example" Sample.ldapserver).
    + vm_compute. left. reflexivity.
    + discriminate.
Defined.

(** *** C5 *)

(** A realname that holds a placeholder, for a domain without directory
    server, and a common name that holds placeholders: the account name of
    the document is the expansion, and differs from the name. *)
Lemma account_name_is_expanded :
  (exists plist,
      client_config_plist "automx2" Sample.unique
        Sample.expand_placeholders "alice" "example.com" "%EMAILADDRESS%"
        Sample.example_com None = Ok plist
      /\ sample_client_config "alice" "example.com" "%EMAILADDRESS%" "secret"
         = Run [] (Ok (PyBytes (Sample.tostring plist "utf-8")))
      /\ account_field plist "EmailAccountName"
         = Some (string_element "alice@example.com")
      /\ account_field plist "EmailAccountName"
         <> Some (string_element "%EMAILADDRESS%"))
  /\
  (exists r plist,
      lookup Sample.entries "(mail=carol@corp.example)" = Some r
      /\ LookupResult.cn r = Some "%EMAILLOCALPART% of %EMAILDOMAIN%"
      /\ client_config_plist "automx2" Sample.unique
           Sample.expand_placeholders "carol" "corp.example" "Carol"
           Sample.corp (Some r) = Ok plist
      /\ sample_client_config "carol" "corp.example" "Carol" "secret"
         = Run [DirectoryLookup "carol@corp.example" Sample.ldapserver r]
             (Ok (PyBytes (Sample.tostring plist "utf-8")))
      /\ account_field plist "EmailAccountName"
         = Some (string_element "carol of corp.example")
      /\ account_field plist "EmailAccountName"
         <> Some (string_element "%EMAILLOCALPART% of %EMAILDOMAIN%")).
Proof.
  split.
  - eexists. split; [vm_compute; reflexivity|].
    split; [vm_compute; reflexivity|].
    split; [vm_compute; reflexivity | vm_compute; discriminate].
  - eexists. eexists. split; [reflexivity|].
    split; [reflexivity|].
    split; [vm_compute; reflexivity|].
    split; [vm_compute; reflexivity|].
    split; [vm_compute; reflexivity | vm_compute; discriminate].
Qed.

Lemma client_config_account_name_witness :
  exists domain lookup_result plist,
    Domain_query_first Sample.domains "corp.example" = Some domain
    /\ client_config_plist "automx2" Sample.unique Sample.expand_placeholders
         "alice" "corp.example" "Alice A." domain lookup_result = Ok plist
    /\ account_field plist "EmailAccountName"
       = Some (string_element "Alice Liddell").
Proof.
  assert (H : exists bytes,
             result (sample_client_config "alice" "corp.example" "Alice A."
                       "secret") = Ok (PyBytes bytes)).
  { eexists. vm_compute. reflexivity. }
  destruct H as [bytes H].
  destruct (on_sample client_config_account_name
              "alice" "corp.example" "Alice A." "secret" bytes H)
    as (domain & lookup_result & plist & Hd & Hp & _ & Hcn & _).
  exists domain, lookup_result, plist.
  split; [exact Hd|]. split; [exact Hp|].
  apply (Hcn Sample.ldapserver
           {| LookupResult.status := STATUS_SUCCESS;
              LookupResult.cn := Some "Alice Liddell";
              LookupResult.uid := Some "alice" |}
           "Alice Liddell").
  - vm_compute. left. reflexivity.
  - reflexivity.
  - discriminate.
Defined.

(** *** C6 *)

Lemma map_socket_type_total_witness :
  _map_socket_type Sample.imap = true
  /\ _map_socket_type Sample.smtp = true
  /\ _map_socket_type Sample.smtp_digest = false.
Proof.
  split; [|split].
  - apply (proj1 (map_socket_type_total Sample.imap)). reflexivity.
  - apply (proj1 (proj2 (map_socket_type_total Sample.smtp))). reflexivity.
  - apply (proj2 (proj2 (map_socket_type_total Sample.smtp_digest)));
      discriminate.
Defined.

(** *** C7 *)



(** *** C8 *)

(** A mapping under a key of a mapping: the container follows the
    elements of the entries before it, and no key element names it. *)
Lemma nested_mapping_has_no_key_element :
  _subtree (new "plist" []) EmptyString
    (VDict [ ("Version", VInt 1);
             ("Settings", VDict [("Enabled", VBool true)]) ])
  = Elem "plist" [] None
      [ Elem "dict" [] None
          [ key_element "Version";
            Elem "integer" [] (Some "1") [];
            Elem "dict" [] None
              [ key_element "Enabled"; Elem "true" [] None [] ] ] ]
  /\ (forall parent items,
         _subtree parent "Settings" (VDict items)
         <> add_children parent
              [ key_element "Settings";
                Elem "dict" [] None
                  (flat_map (fun kv => markup (fst kv) (snd kv)) items) ]).
Proof.
  split; [reflexivity|].
  intros parent items H. rewrite subtree_markup in H.
  destruct parent as [t a x c]. simpl in H.
  injection H as H. apply app_inv_head in H. discriminate.
Qed.

Lemma subtree_one_group_per_node_witness :
  _subtree (new "plist" [("version", "1.0")]) EmptyString Sample.tree
  = Elem "plist" [("version", "1.0")] None
      [ Elem "dict" [] None
          [ key_element "Enabled"; Elem "true" [] None [];
            key_element "Version"; Elem "integer" [] (Some "3") [];
            key_element "Owner"; Elem "string" [] (Some "%EMAILLOCALPART%") [];
            key_element "Accounts";
            Elem "array" [] None
              [ Elem "dict" [] None
                  [ key_element "Address";
                    Elem "string" [] (Some "%EMAILADDRESS%") [] ];
                Elem "dict" [] None
                  [ key_element "Host";
                    Elem "string" [] (Some "mail.%EMAILDOMAIN%") [];
                    key_element "Secure"; Elem "false" [] None [] ] ] ] ].
Proof.
  rewrite (proj1 (proj2 (proj2 (proj2 (proj2 (proj2
             (subtree_one_group_per_node
                (new "plist" [("version", "1.0")]) EmptyString))))))).
  reflexivity.
Defined.

(** *** C9 *)

Lemma subtree_bool_before_int_witness :
  _subtree (new "dict" []) "Enabled" (VBool true)
  = Elem "dict" [] None [key_element "Enabled"; Elem "true" [] None []]
  /\ tags_in "true" (_subtree (new "plist" []) EmptyString Sample.tree) = 1
  /\ tags_in "false" (_subtree (new "plist" []) EmptyString Sample.tree) = 1
  /\ tags_in "integer" (_subtree (new "plist" []) EmptyString Sample.tree)
     = 1.
Proof.
  destruct (subtree_bool_before_int (new "dict" []) "Enabled")
    as [Hb _].
  destruct (subtree_bool_before_int (new "plist" []) EmptyString)
    as [_ Ht].
  destruct (Hb true) as (_ & _ & Hm).
  destruct (Ht Sample.tree) as (H1 & H2 & H3).
  split; [rewrite Hm; reflexivity|].
  split; [rewrite H1; reflexivity|].
  split; [rewrite H2; reflexivity | rewrite H3; reflexivity].
Defined.

(** *** C10 *)

(** A domain whose one server is of an unknown type has no imap server,
    and its request makes no directory lookup: it fails on the type of the
    server, not on a missing host name. *)
Lemma missing_direction_behind_invalid_server :
  Domain_query_first Sample.domains "pop.example" = Some Sample.pop_only
  /\ Domain.servers Sample.pop_only = [Sample.pop3]
  /\ Server.type Sample.pop3 <> "imap"
  /\ sample_client_config "alice" "pop.example" "Alice A." "secret"
     = raise (InvalidServerType ("Invalid server type " ++ quoted "pop3"))
  /\ result (sample_client_config "alice" "pop.example" "Alice A." "secret")
     <> Raise (missing_value "IncomingMailServerHostName").
Proof.
  repeat split; try discriminate.
Qed.

Lemma client_config_needs_both_directions_witness :
  result (sample_client_config "alice" "smtponly.example" "Alice A."
            "secret")
  = Raise (missing_value "IncomingMailServerHostName")
  /\ result (sample_client_config "alice" "imaponly.example" "Alice A."
               "secret")
     = Raise (missing_value "OutgoingMailServerHostName").
Proof.
  split.
  - apply (on_sample client_config_needs_both_directions
             "alice" "smtponly.example" "Alice A." "secret")
      with Sample.smtp_only Sample.provider None.
    + reflexivity.
    + reflexivity.
    + discriminate.
    + constructor; [|constructor].
      split; [right; reflexivity | right; right; reflexivity].
    + reflexivity.
    + intros s [<-|[]]. discriminate.
  - apply (on_sample client_config_needs_both_directions
             "alice" "imaponly.example" "Alice A." "secret")
      with Sample.imap_only Sample.provider None.
    + reflexivity.
    + reflexivity.
    + discriminate.
    + constructor; [|constructor].
      split; [left; reflexivity | right; right; reflexivity].
    + reflexivity.
    + exists Sample.imap. split; [left; reflexivity | reflexivity].
    + intros s [<-|[]]. discriminate.
Defined.

(** *** Further properties *)

Lemma client_config_last_server_fields_witness :
  exists plist,
    client_config_plist "automx2" Sample.unique Sample.expand_placeholders
      "alice" "twoimap.example" "Alice A." Sample.two_imap None = Ok plist
    /\ account_field plist "IncomingMailServerHostName"
       = Some (string_element "backup.example.com")
    /\ account_field plist "IncomingMailServerPortNumber"
       = Some (Elem "integer" [] (Some "143") [])
    /\ account_field plist "IncomingMailServerUsername"
       = Some (string_element "alice").
Proof.
  assert (H : exists plist,
             client_config_plist "automx2" Sample.unique
               Sample.expand_placeholders "alice" "twoimap.example"
               "Alice A." Sample.two_imap None = Ok plist).
  { eexists. vm_compute. reflexivity. }
  destruct H as [plist H]. exists plist. split; [exact H|].
  destruct (client_config_last_server_fields "automx2" Sample.unique
              Sample.expand_placeholders "alice" "twoimap.example" "Alice A."
              Sample.two_imap None plist H)
    as (incoming & outgoing & Ei & _ & Hh & Hp & Hu & _).
  vm_compute in Ei. injection Ei as <-.
  split; [exact Hh|]. split; [exact Hp | exact Hu].
Defined.

(** *** Serialisation, on the sample tree *)

Lemma subtree_read_back_witness :
  exists container : Element,
    children (_subtree (new "plist" []) EmptyString Sample.tree)
    = [container]
    /\ tag container = "dict"
    /\ value_after_key "Version" (children container)
       = Some (Elem "integer" [] (Some "3") []).
Proof.
  destruct (subtree_read_back (new "plist" []) EmptyString "Version"
              [ ("Enabled", VBool true);
                ("Version", VInt 3);
                ("Owner", VStr "%EMAILLOCALPART%");
                ("Accounts",
                  VList
                    [ VDict [("Address", VStr "%EMAILADDRESS%")];
                      VDict [("Host", VStr "mail.%EMAILDOMAIN%");
                             ("Secure", VBool false)] ]) ]
              eq_refl)
    as (container & Hc & Ht & Hv).
  exists container. split; [exact Hc|]. split; [exact Ht | exact Hv].
Defined.

(** *** Sanitisation, on the sample tree *)

Lemma sanitise_keeps_skeleton_witness :
  exists data',
    _sanitise Sample.expand_placeholders Sample.tree "alice" "example.com"
    = Ok data'
    /\ skeleton data' = skeleton Sample.tree
    /\ payload_tree data'
    /\ null_keys EmptyString data' = [].
Proof.
  assert (H : exists data',
             _sanitise Sample.expand_placeholders Sample.tree
               "alice" "example.com" = Ok data').
  { eexists. vm_compute. reflexivity. }
  destruct H as [data' H]. exists data'. split; [exact H|].
  apply (sanitise_keeps_skeleton Sample.expand_placeholders Sample.tree data'
           "alice" "example.com"); [|exact H].
  split; reflexivity.
Defined.

Lemma sanitise_twice_witness :
  exists data',
    _sanitise Sample.expand_placeholders Sample.tree "alice" "example.com"
    = Ok data'
    /\ _sanitise Sample.expand_placeholders data' "alice" "example.com"
       = Ok data'.
Proof.
  assert (H : exists data',
             _sanitise Sample.expand_placeholders Sample.tree
               "alice" "example.com" = Ok data').
  { eexists. vm_compute. reflexivity. }
  destruct H as [data' H]. exists data'. split; [exact H|].
  apply (sanitise_twice Sample.expand_placeholders Sample.tree data'
           "alice" "example.com"); [| |exact H].
  - split; reflexivity.
  - repeat (apply Forall_cons; [vm_compute; reflexivity|]). apply Forall_nil.
Defined.

Lemma sanitised_document_strings_witness :
  exists data',
    _sanitise Sample.expand_placeholders Sample.tree "alice" "example.com"
    = Ok data'
    /\ string_texts (_subtree (new "plist" []) EmptyString data')
       = [Some "alice"; Some "alice@example.com"; Some "mail.example.com"].
Proof.
  assert (H : exists data',
             _sanitise Sample.expand_placeholders Sample.tree
               "alice" "example.com" = Ok data').
  { eexists. vm_compute. reflexivity. }
  destruct H as [data' H]. exists data'. split; [exact H|].
  rewrite (sanitised_document_strings Sample.expand_placeholders
             (new "plist" []) EmptyString Sample.tree data'
             "alice" "example.com"); [reflexivity| |exact H].
  split; reflexivity.
Defined.

(** A null among the elements of a list, in front of a null value. *)
Lemma sanitise_list_of_non_mapping_witness :
  _sanitise Sample.expand_placeholders
    (VDict
       [ ("Owner", VStr "%EMAILLOCALPART%");
         ("Accounts",
           VList [VDict [("Address", VStr "%EMAILADDRESS%")]; VNone]);
         ("Version", VNone) ])
    "alice" "example.com"
  = Raise (AttributeError "'NoneType' object has no attribute 'items'").
Proof.
  apply (sanitise_list_of_non_mapping Sample.expand_placeholders
           [("Owner", VStr "%EMAILLOCALPART%")]
           [("Version", VNone)]
           "Accounts"
           [VDict [("Address", VStr "%EMAILADDRESS%")]] [] VNone
           "alice" "example.com").
  - constructor; [|constructor]. split; reflexivity.
  - constructor; [|constructor]. split; [split; reflexivity | reflexivity].
  - reflexivity.
Defined.

(** *** The outcomes of a request, on the sample installation *)

Lemma client_config_empty_only_on_no_match_witness :
  exists ldapserver r,
    events (sample_client_config "bob" "corp.example" "Bob" "secret")
    = [DirectoryLookup "bob@corp.example" ldapserver r]
    /\ LookupResult.status r = STATUS_NO_MATCH.
Proof.
  assert (H : result (sample_client_config "bob" "corp.example" "Bob"
                        "secret") = Ok (PyStr EmptyString)).
  { vm_compute. reflexivity. }
  destruct (on_sample client_config_empty_only_on_no_match
              "bob" "corp.example" "Bob" "secret" EmptyString H)
    as (_ & domain & ldapserver & r & _ & _ & Hev & Hst).
  exists ldapserver, r. split; [exact Hev | exact Hst].
Defined.

Lemma client_config_lookup_error_witness :
  result (sample_client_config "mallory" "corp.example" "Mallory" "secret")
  = Raise (LdapLookupError "LDAP bind failed").
Proof.
  apply (on_sample client_config_lookup_error
           "mallory" "corp.example" "Mallory" "secret" Sample.ldapserver
           {| LookupResult.status := STATUS_ERROR;
              LookupResult.cn := None;
              LookupResult.uid := None |}).
  - vm_compute. left. reflexivity.
  - reflexivity.
Defined.

Lemma client_config_succeeds_witness :
  exists plist,
    result (sample_client_config "alice" "corp.example" "Alice A." "secret")
    = Ok (PyBytes (Sample.tostring plist "utf-8")).
Proof.
  destruct (on_sample client_config_succeeds
              "alice" "corp.example" "Alice A." "secret"
              Sample.corp Sample.provider
              (Some {| LookupResult.status := STATUS_SUCCESS;
                       LookupResult.cn := Some "Alice Liddell";
                       LookupResult.uid := Some "alice" |}))
    as (plist & _ & H).
  - reflexivity.
  - reflexivity.
  - constructor; [|constructor; [|constructor]].
    + split; [left; reflexivity | right; right; reflexivity].
    + split; [right; reflexivity | right; right; reflexivity].
  - exists Sample.imap. split; [left; reflexivity | reflexivity].
  - exists Sample.smtp. split; [right; left; reflexivity | reflexivity].
  - eexists. split; [reflexivity|]. split; [vm_compute; reflexivity|].
    split; discriminate.
  - exists plist. exact H.
Defined.

(** *** The schema of a document, on the sample installation *)

Lemma client_config_account_schema_witness :
  exists plist,
    client_config_plist "automx2" Sample.unique Sample.expand_placeholders
      "alice" "example.com" "Alice A." Sample.example_com None = Ok plist
    /\ account_field plist "EmailAddress"
       = Some (string_element "alice@example.com")
    /\ account_field plist "PayloadDescription"
       = Some (string_element
                 "Email account configuration for alice@example.com")
    /\ account_field plist "SMIMEEnabled" = Some (Elem "false" [] None []).
Proof.
  assert (H : exists plist,
             client_config_plist "automx2" Sample.unique
               Sample.expand_placeholders "alice" "example.com"
               "Alice A." Sample.example_com None = Ok plist).
  { eexists. vm_compute. reflexivity. }
  destruct H as [plist H]. exists plist. split; [exact H|].
  pose proof (client_config_account_schema "automx2" Sample.unique
                Sample.expand_placeholders "alice" "example.com" "Alice A."
                Sample.example_com None plist H) as Hs.
  cbv zeta in Hs.
  destruct Hs as (_ & _ & Ha & _ & Hd & _ & _ & _ & _ & He & _).
  split; [exact Ha|]. split; [exact Hd | exact He].
Defined.

Lemma client_config_identifiers_witness :
  exists plist,
    client_config_plist "automx2" Sample.unique Sample.expand_placeholders
      "alice" "example.com" "Alice A." Sample.example_com None = Ok plist
    /\ account_field plist "PayloadIdentifier"
       = Some (string_element
                 "com.apple.mail.managed.5B3A0F0E-0000-4000-8000-000000000001")
    /\ envelope_field plist "PayloadIdentifier"
       = Some (string_element
                 "automx2-5B3A0F0E-0000-4000-8000-000000000002").
Proof.
  assert (H : exists plist,
             client_config_plist "automx2" Sample.unique
               Sample.expand_placeholders "alice" "example.com"
               "Alice A." Sample.example_com None = Ok plist).
  { eexists. vm_compute. reflexivity. }
  destruct H as [plist H]. exists plist. split; [exact H|].
  pose proof (client_config_identifiers "automx2" Sample.unique
                Sample.expand_placeholders "alice" "example.com" "Alice A."
                Sample.example_com None plist H) as Hs.
  cbv zeta in Hs.
  destruct Hs as (_ & Ha & _ & He).
  split; [exact Ha | exact He].
Defined.

Lemma client_config_envelope_witness :
  exists plist account,
    client_config_plist "automx2" Sample.unique Sample.expand_placeholders
      "alice" "example.com" "Alice A." Sample.example_com None = Ok plist
    /\ envelope_field plist "PayloadDisplayName"
       = Some (string_element "Mail account example.com")
    /\ envelope_field plist "PayloadContent"
       = Some (Elem "array" [] None [account]).
Proof.
  assert (H : exists plist,
             client_config_plist "automx2" Sample.unique
               Sample.expand_placeholders "alice" "example.com"
               "Alice A." Sample.example_com None = Ok plist).
  { eexists. vm_compute. reflexivity. }
  destruct H as [plist H]. exists plist.
  pose proof (client_config_envelope "automx2" Sample.unique
                Sample.expand_placeholders "alice" "example.com" "Alice A."
                Sample.example_com None plist H) as Hs.
  cbv zeta in Hs.
  destruct Hs as (Hn & _ & _ & _ & account & Hc & _).
  exists account. split; [exact H|]. split; [exact Hn | exact Hc].
Defined.

Lemma client_config_authentication_fields_witness :
  exists plist,
    client_config_plist "automx2" Sample.unique Sample.expand_placeholders
      "alice" "twoimap.example" "Alice A." Sample.two_imap None = Ok plist
    /\ account_field plist "IncomingMailServerAuthentication"
       = Some (string_element "EmailAuthNTLM")
    /\ account_field plist "OutgoingMailServerAuthentication"
       = Some (string_element "EmailAuthPassword").
Proof.
  assert (H : exists plist,
             client_config_plist "automx2" Sample.unique
               Sample.expand_placeholders "alice" "twoimap.example"
               "Alice A." Sample.two_imap None = Ok plist).
  { eexists. vm_compute. reflexivity. }
  destruct H as [plist H]. exists plist. split; [exact H|].
  destruct (client_config_authentication_fields "automx2" Sample.unique
              Sample.expand_placeholders "alice" "twoimap.example" "Alice A."
              Sample.two_imap None plist H)
    as (incoming & outgoing & a & b & Ei & Eo & Ea & Eb & Hi & Ho).
  vm_compute in Ei. injection Ei as <-.
  vm_compute in Eo. injection Eo as <-.
  vm_compute in Ea. injection Ea as <-.
  vm_compute in Eb. injection Eb as <-.
  split; [exact Hi | exact Ho].
Defined.

Lemma fill_keeps_keys_witness :
  exists outer',
    for_each
      (client_config_server
         (fst (_payload "automx2" Sample.unique "alice" "twoimap.example")))
      [Sample.imap; Sample.imap_backup; Sample.smtp]
      (snd (_payload "automx2" Sample.unique "alice" "twoimap.example"))
    = Ok outer'
    /\ keys outer'
       = [ "PayloadContent"; "PayloadDisplayName"; "PayloadIdentifier";
           "PayloadRemovalDisallowed"; "PayloadType"; "PayloadUUID";
           "PayloadVersion" ]%list.
Proof.
  assert (H : exists outer',
             for_each
               (client_config_server
                  (fst (_payload "automx2" Sample.unique "alice"
                          "twoimap.example")))
               [Sample.imap; Sample.imap_backup; Sample.smtp]
               (snd (_payload "automx2" Sample.unique "alice"
                       "twoimap.example"))
             = Ok outer').
  { eexists. vm_compute. reflexivity. }
  destruct H as [outer' H]. exists outer'. split; [exact H|].
  exact (proj1 (fill_keeps_keys "automx2" Sample.unique "alice"
                  "twoimap.example"
                  [Sample.imap; Sample.imap_backup; Sample.smtp] outer' H)).
Defined.
